(** * Vita admin controller: authentication and moderation workflows

    A shallow embedding of [api/src/controllers/admin.controller.ts].
    Every handler of the controller is an asynchronous Express handler that
    talks to the Mongoose models, to the e-mail service and to the response
    object.  Here a handler is a function in a small reader/state/exception
    monad:

    - the state holds the four collections, the delivered mail and the trace
      of the operations issued so far;
    - the environment holds what the handler does not decide: which outside
      operation rejects, which of two operations awaited together takes
      effect first, the clock and the values the collaborators hand back;
    - a rejected promise that nobody catches is the [Throw] outcome.

    [createAdmin] comes after the other handlers, with the schema's
    constructor as a parameter. *)

From Stdlib Require Import ZArith.
From stdpp Require Import base option list strings pretty gmap.

Set Warnings "-register-all".

(** ** JSON values *)

Inductive Json : Type :=
  | JUndefined
  | JNull
  | JBool (b : bool)
  | JNum (n : Z)
  | JStr (s : string)
  | JObj (fields : list (string * Json)).

(** JavaScript truthiness, as used by [!req.user] and [id && ...]. *)
Definition truthy (j : Json) : bool :=
  match j with
  | JUndefined | JNull => false
  | JBool b => b
  | JNum n => negb (n =? 0)%Z
  | JStr s => negb (String.eqb s "")
  | JObj _ => true
  end.

(** Property read [o.k]; a missing property reads as [undefined]. *)
Fixpoint prop (k : string) (fields : list (string * Json)) : Json :=
  match fields with
  | [] => JUndefined
  | (k', v) :: rest => if String.eqb k k' then v else prop k rest
  end.

(** [mentions k j]: some object inside [j] has a property named [k]. *)
Fixpoint mentions (k : string) (j : Json) : bool :=
  match j with
  | JObj fields =>
      (fix go (fs : list (string * Json)) : bool :=
         match fs with
         | [] => false
         | (k', v) :: rest => String.eqb k k' || mentions k v || go rest
         end) fields
  | _ => false
  end.

(** ** Documents *)

Definition ObjectId := string.

Module Otp.
Record t := mk { hash : string; expiry : Z; consumed : bool }.
End Otp.

(** Modelled from the spec: the Admin schema ([Models/Admins]) is not part of
    the sources; section 3 gives an account an identity (email), a password
    hash and the state of its pending passcode, absent when none is pending. *)
Module Admin.
Record t := mk {
  _id : ObjectId;
  name : string;
  email : string;
  password : string;
  otp : option Otp.t
}.
Definition set_otp (o : option Otp.t) (a : t) : t :=
  mk (_id a) (name a) (email a) (password a) o.
(** Modelled from the spec: how the Admin schema serialises an account for
    [res.json] is not part of the sources either; section 4.3 has
    [verifyOtp] return "the account profile (minus secrets)", that is the
    identity fields without the password hash and the passcode state. *)
Definition toJSON (a : t) : Json :=
  JObj [("_id", JStr (_id a)); ("name", JStr (name a)); ("email", JStr (email a))].
End Admin.

(** The fields of a mentor profile that the controller reads or writes. *)
Module Mentor.
Record t := mk { email : string; approved : bool; top_mentor : bool }.
Definition set_approved (b : bool) (m : t) : t := mk (email m) b (top_mentor m).
Definition set_top_mentor (b : bool) (m : t) : t := mk (email m) (approved m) b.
End Mentor.

(** The fields of a user that the controller reads: the address and the
    reference to the linked mentor profile, which may be unset. *)
Module User.
Record t := mk { email : string; mentor_information : option ObjectId }.
End User.

(** ** Requests and responses *)

Record Request := mkRequest {
  user : Json;
  cookies : Json;
  body : list (string * Json);
  query : list (string * Json);
  params : list (string * Json)
}.

Record Cookie := mkCookie {
  cookie_name : string;
  cookie_value : string;
  httpOnly : bool;
  maxAge : Z
}.

Record Response := mkResponse {
  status : Z;
  json : Json;
  set_cookies : list Cookie;
  cleared_cookies : list string
}.

(** A fresh response object: Express answers 200 unless told otherwise. *)
Definition res : Response := mkResponse 200 JUndefined [] [].
Definition res_status (code : Z) (r : Response) : Response :=
  mkResponse code (json r) (set_cookies r) (cleared_cookies r).
Definition res_json (b : Json) (r : Response) : Response :=
  mkResponse (status r) b (set_cookies r) (cleared_cookies r).
Definition res_cookie (c : Cookie) (r : Response) : Response :=
  mkResponse (status r) (json r) (set_cookies r ++ [c]) (cleared_cookies r).
Definition res_clearCookie (n : string) (r : Response) : Response :=
  mkResponse (status r) (json r) (set_cookies r) (cleared_cookies r ++ [n]).

(** ** The world outside the handler *)

(** The operations a handler issues against its collaborators. *)
Inductive Op :=
  | OpFindAdmin | OpSaveAdmin
  | OpFindMentor | OpSaveMentor | OpDeleteMentor
  | OpFindUser | OpDeleteUser
  | OpDeleteBanners | OpCreateBanner
  | OpSendEmail.

Inductive Error :=
  | PersistenceError (op : Op)
  | CastError
  | MailError.

Definition message (e : Error) : string :=
  match e with
  | PersistenceError _ => "persistence failure"
  | CastError => "Cast to ObjectId failed"
  | MailError => "mail delivery failure"
  end.

Record Mail := mkMail { mail_to : string; mail_subject : string; mail_html : string }.

(** The trace records every operation at the moment it is issued, whether it
    then succeeds or rejects. *)
Inductive Event :=
  | EFindAdmin (email : Json)
  | ESaveAdmin (a : Admin.t)
  | EFindMentor (id : Json)
  | ESaveMentor (id : ObjectId) (m : Mentor.t)
  | EDeleteMentor (id : option ObjectId)
  | EFindUser (id : Json)
  | EDeleteUser (id : ObjectId)
  | EDeleteBanners
  | ECreateBanner (b : Json)
  | ESendEmail (m : Mail).

Definition is_store_event (e : Event) : bool :=
  match e with ESendEmail _ => false | _ => true end.
Definition is_mail_event (e : Event) : bool :=
  match e with ESendEmail _ => true | _ => false end.

Record Env := mkEnv {
  rejects : Op -> bool;      (* the operations that reject in this request *)
  in_order : bool;           (* of two operations awaited together, the one
                                listed first takes effect first *)
  now : Z;                   (* the clock *)
  fresh_otp : string;        (* the passcode the generator draws *)
  email_id : string          (* the id the mail service hands back *)
}.

Record State := mkState {
  admins : list Admin.t;
  mentors : gmap ObjectId Mentor.t;
  users : gmap ObjectId User.t;
  banners : list Json;
  outbox : list Mail;
  trace : list Event
}.

(** The persistent part of the state: the four collections. *)
Definition store (st : State) :=
  (admins st, mentors st, users st, banners st).

Definition set_admins (f : list Admin.t -> list Admin.t) (st : State) : State :=
  mkState (f (admins st)) (mentors st) (users st) (banners st) (outbox st) (trace st).
Definition set_mentors (f : gmap ObjectId Mentor.t -> gmap ObjectId Mentor.t)
    (st : State) : State :=
  mkState (admins st) (f (mentors st)) (users st) (banners st) (outbox st) (trace st).
Definition set_users (f : gmap ObjectId User.t -> gmap ObjectId User.t)
    (st : State) : State :=
  mkState (admins st) (mentors st) (f (users st)) (banners st) (outbox st) (trace st).
Definition set_banners (f : list Json -> list Json) (st : State) : State :=
  mkState (admins st) (mentors st) (users st) (f (banners st)) (outbox st) (trace st).
Definition set_outbox (f : list Mail -> list Mail) (st : State) : State :=
  mkState (admins st) (mentors st) (users st) (banners st) (f (outbox st)) (trace st).
Definition set_trace (f : list Event -> list Event) (st : State) : State :=
  mkState (admins st) (mentors st) (users st) (banners st) (outbox st) (f (trace st)).

(** ** The monad of handlers *)

Inductive Result (A : Type) :=
  | Ok (a : A)
  | Throw (e : Error).
Arguments Ok {A} a.
Arguments Throw {A} e.

Definition M (A : Type) : Type := Env -> State -> Result A * State.

Definition ret {A} (a : A) : M A := fun _ st => (Ok a, st).
Definition throw {A} (e : Error) : M A := fun _ st => (Throw e, st).
Definition bind {A B} (m : M A) (k : A -> M B) : M B :=
  fun env st =>
    match m env st with
    | (Ok a, st') => k a env st'
    | (Throw e, st') => (Throw e, st')
    end.

Declare Scope handler_scope.
Delimit Scope handler_scope with handler.
Notation "'let*' x ':=' m 'in' k" := (bind m (fun x => k))
  (at level 10, x pattern, m at level 100, k at level 200) : handler_scope.
Notation "m ';;' k" := (bind m (fun _ => k))
  (at level 100, k at level 200, right associativity) : handler_scope.
Open Scope handler_scope.

(** [try { body } catch (err) { handler }] *)
Definition try_catch {A} (body : M A) (handler : Error -> M A) : M A :=
  fun env st =>
    match body env st with
    | (Ok a, st') => (Ok a, st')
    | (Throw e, st') => handler e env st'
    end.

(** [await Promise.all([p, q])].  Both operations have been started before
    the handler waits, so each runs whatever becomes of the other; nothing
    orders them, and the environment says which one takes effect first.  The
    wait rejects with the first rejection. *)
Definition promise_all2 {A B} (p : M A) (q : M B) : M (A * B) :=
  fun env st =>
    if in_order env then
      match p env st with
      | (ra, st1) =>
          match q env st1 with
          | (rb, st2) =>
              (match ra, rb with
               | Ok a, Ok b => Ok (a, b)
               | Throw e, _ => Throw e
               | Ok _, Throw e => Throw e
               end, st2)
          end
      end
    else
      match q env st with
      | (rb, st1) =>
          match p env st1 with
          | (ra, st2) =>
              (match rb, ra with
               | Ok b, Ok a => Ok (a, b)
               | Throw e, _ => Throw e
               | Ok _, Throw e => Throw e
               end, st2)
          end
      end.

Definition ask : M Env := fun env st => (Ok env, st).
Definition get : M State := fun _ st => (Ok st, st).
Definition modify (f : State -> State) : M unit := fun _ st => (Ok tt, f st).

(** Issue an operation: record it, then reject if the environment says so. *)
Definition issue (op : Op) (ev : Event) (e : Error) : M unit :=
  fun env st =>
    let st' := set_trace (fun t => t ++ [ev]) st in
    if rejects env op then (Throw e, st') else (Ok tt, st').

(** ** The collaborators *)

(** The e-mail service: [sendEmail(to, subject, html)] resolves to the id of
    the message, or rejects. *)
Definition sendEmail (to subject html : string) : M string :=
  let m := mkMail to subject html in
  issue OpSendEmail (ESendEmail m) MailError;;
  modify (set_outbox (fun o => o ++ [m]));;
  let* env := ask in
  ret (email_id env).

(** [{ email }] as a filter: an account matches when its address is the given
    string; a value that is not a string matches no account. *)
Definition matches_email (email : Json) (a : Admin.t) : bool :=
  match email with
  | JStr e => String.eqb (Admin.email a) e
  | _ => false
  end.

Module AdminModel.
Definition findOne (email : Json) : M (option Admin.t) :=
  issue OpFindAdmin (EFindAdmin email) (PersistenceError OpFindAdmin);;
  let* st := get in
  ret (List.find (matches_email email) (admins st)).

Definition save (a : Admin.t) : M unit :=
  issue OpSaveAdmin (ESaveAdmin a) (PersistenceError OpSaveAdmin);;
  modify (set_admins
            (map (fun a' => if String.eqb (Admin._id a') (Admin._id a)
                            then a else a'))).
End AdminModel.

Module BannerModel.
Definition deleteMany : M unit :=
  issue OpDeleteBanners EDeleteBanners (PersistenceError OpDeleteBanners);;
  modify (set_banners (fun _ => [])).

Definition create (b : Json) : M Json :=
  issue OpCreateBanner (ECreateBanner b) (PersistenceError OpCreateBanner);;
  modify (set_banners (fun bs => bs ++ [b]));;
  ret b.
End BannerModel.

(** A document is the record together with the key it is stored under. *)
Definition MentorDoc : Type := ObjectId * Mentor.t.
Definition UserDoc : Type := ObjectId * User.t.

(** What the sources take from outside [src/]: Mongoose's id check and cast,
    the template renderer of [utils/makeTemplate], and the methods the Admin
    schema attaches to an account.  The two passcode methods persist what
    they change and hand back the document as they leave it. *)
Class Externals := {
  isValidObjectId : Json -> bool;
  castObjectId : Json -> option ObjectId;
  makeTemplate : string -> Json -> string;
  comparePassword : Admin.t -> Json -> bool;
  generateOTP : Admin.t -> M (string * Admin.t);
  verifyOTP : Admin.t -> Json -> M (bool * Admin.t);
  issueToken : Admin.t -> string
}.

Section Controller.
Context `{Externals}.

Definition MentorModel_findById (id : Json) : M (option MentorDoc) :=
  issue OpFindMentor (EFindMentor id) (PersistenceError OpFindMentor);;
  match castObjectId id with
  | None => throw CastError
  | Some k =>
      let* st := get in
      ret (match mentors st !! k with Some m => Some (k, m) | None => None end)
  end.

Definition MentorModel_deleteOne (id : option ObjectId) : M unit :=
  issue OpDeleteMentor (EDeleteMentor id) (PersistenceError OpDeleteMentor);;
  modify (set_mentors (fun ms => match id with
                                 | Some k => delete k ms
                                 | None => ms
                                 end)).

Definition mentor_save (mentor : MentorDoc) : M unit :=
  issue OpSaveMentor (ESaveMentor (fst mentor) (snd mentor))
        (PersistenceError OpSaveMentor);;
  modify (set_mentors (insert (fst mentor) (snd mentor))).

Definition UserModel_findById (id : Json) : M (option UserDoc) :=
  issue OpFindUser (EFindUser id) (PersistenceError OpFindUser);;
  match castObjectId id with
  | None => throw CastError
  | Some k =>
      let* st := get in
      ret (match users st !! k with Some u => Some (k, u) | None => None end)
  end.

Definition user_delete (user : UserDoc) : M unit :=
  issue OpDeleteUser (EDeleteUser (fst user)) (PersistenceError OpDeleteUser);;
  modify (set_users (delete (fst user))).

(** *** Authentication *)

Definition adminAuth (req : Request) : M Response :=
  if negb (truthy (user req)) then
    ret (res_json (JObj [("isLoggedIn", JBool false);
                         ("message", JStr "User is not logged in.");
                         ("user", JObj [("name", JStr ""); ("image_link", JStr "")]);
                         ("cookies", JUndefined)])
           (res_status 200 res))
  else
    ret (res_json (JObj [("isLoggedIn", JBool true);
                         ("message", JStr "User is logged in");
                         ("user", user req);
                         ("cookies", cookies req)])
           (res_status 200 res)).

Definition adminLogin (req : Request) : M Response :=
  let email := prop "email" (body req) in
  let password := prop "password" (body req) in
  let* admin := AdminModel.findOne email in
  match admin with
  | None =>
      ret (res_json (JObj [("error", JStr "Invalid email or password")])
             (res_status 401 res))
  | Some admin =>
      let isPasswordMatch := comparePassword admin password in
      if negb isPasswordMatch then
        ret (res_json (JObj [("error", JStr "Invalid email or password")])
               (res_status 401 res))
      else
        let* (otp, admin) := generateOTP admin in
        let template := makeTemplate "adminOtp.hbs" (JObj [("otp", JStr otp)]) in
        let* emailId := sendEmail (Admin.email admin) "Vita Admin Login" template in
        ret (res_json (JObj [("message", JStr "Email sent");
                             ("emailId", JStr emailId)])
               (res_status 200 res))
  end.

Definition adminVerifyOtp (req : Request) : M Response :=
  let email := prop "email" (body req) in
  let otp := prop "otp" (body req) in
  let* admin := AdminModel.findOne email in
  match admin with
  | None =>
      ret (res_json (JObj [("error", JStr "Invalid email or password")])
             (res_status 401 res))
  | Some admin =>
      let* (isOtpMatch, admin) := verifyOTP admin otp in
      if negb isOtpMatch then
        ret (res_json (JObj [("error", JStr "Invalid OTP")]) (res_status 401 res))
      else
        let token := issueToken admin in
        let res := res_cookie (mkCookie "adminToken" token true
                                        (1000 * 60 * 60 * 24 * 1)) res in
        ret (res_json (JObj [("message", JStr "OTP verified");
                             ("user", Admin.toJSON admin)])
               (res_status 200 res))
  end.

Definition adminLogout (req : Request) : M Response :=
  ret (res_json (JObj [("success", JBool true)])
         (res_clearCookie "adminToken" res)).

(** *** Moderation *)

Definition approveMentor (req : Request) : M Response :=
  let id := prop "id" (body req) in
  let* mentor :=
    (if truthy id && isValidObjectId id then MentorModel_findById id
     else ret None) in
  match mentor with
  | None =>
      ret (res_json (JObj [("error", JStr "Mentor Not Found")]) (res_status 401 res))
  | Some mentor =>
      let mentor := (fst mentor, Mentor.set_approved true (snd mentor)) in
      mentor_save mentor;;
      let* caught :=
        try_catch
          (sendEmail (Mentor.email (snd mentor)) "Vita Application Approved!"
                     (makeTemplate "acceptMentor.hbs" JUndefined);;
           ret None)
          (fun err =>
             ret (Some (res_json (JObj [("message", JStr "Email didn't sent")])
                          (res_status 500 res)))) in
      match caught with
      | Some answer => ret answer
      | None =>
          ret (res_json (JObj [("success", JBool true);
                               ("message", JStr "Mentor Approved!")])
                 (res_status 200 res))
      end
  end.

Definition rejectMentor (req : Request) : M Response :=
  let id := prop "id" (query req) in
  let* user :=
    (if truthy id && isValidObjectId id then UserModel_findById id
     else ret None) in
  match user with
  | None =>
      ret (res_json (JObj [("message", JStr "User didn't found!")])
             (res_status 404 res))
  | Some user =>
      promise_all2 (user_delete user)
                   (MentorModel_deleteOne (User.mentor_information (snd user)));;
      try_catch
        (sendEmail (User.email (snd user)) "Vita Application rejected"
                   (makeTemplate "rejectMentor.hbs" JUndefined);;
         ret (res_json (JObj [("success", JBool true);
                              ("message", JStr "Mentor rejected successfully!")])
                (res_status 200 res)))
        (fun err =>
           ret (res_json (JObj [("message", JStr "Email didn't sent")])
                  (res_status 500 res)))
  end.

Definition deleteUser (req : Request) : M Response :=
  let id := prop "id" (params req) in
  let* user :=
    (if truthy id && isValidObjectId id then UserModel_findById id
     else ret None) in
  match user with
  | None =>
      ret (res_json (JObj [("error", JStr "User not found")]) (res_status 404 res))
  | Some user =>
      promise_all2 (user_delete user)
                   (MentorModel_deleteOne (User.mentor_information (snd user)));;
      try_catch
        (sendEmail (User.email (snd user)) "User account deleted"
                   (makeTemplate "accountDeleted.hbs"
                                 (JObj [("email", JStr (User.email (snd user)))]));;
         ret (res_json (JObj [("success", JBool true);
                              ("message", JStr "Mentor rejected successfully!")])
                (res_status 200 res)))
        (fun err =>
           ret (res_json (JObj [("message", JStr "Email didn't sent")])
                  (res_status 500 res)))
  end.

Definition changeTopMentorStatus (req : Request) : M Response :=
  let id := prop "id" (body req) in
  let* mentor :=
    (if truthy id && isValidObjectId id then MentorModel_findById id
     else ret None) in
  match mentor with
  | None =>
      ret (res_json (JObj [("error", JStr "Mentor Not Found")]) (res_status 401 res))
  | Some mentor =>
      let mentor :=
        (fst mentor,
         Mentor.set_top_mentor (negb (Mentor.top_mentor (snd mentor))) (snd mentor)) in
      mentor_save mentor;;
      let* caught :=
        try_catch
          (sendEmail (Mentor.email (snd mentor)) "Vita top mentor"
                     (makeTemplate "topMentor.hbs"
                        (JObj [("top_mentor",
                                JBool (Mentor.top_mentor (snd mentor)))]));;
           ret None)
          (fun err =>
             ret (Some (res_json (JObj [("message", JStr "Email didn't sent")])
                          (res_status 500 res)))) in
      match caught with
      | Some answer => ret answer
      | None =>
          ret (res_json (JObj [("success", JBool true);
                               ("message", JStr "Mentor Approved!")])
                 (res_status 200 res))
      end
  end.

Definition modifyBanner (req : Request) : M Response :=
  let deletePromise := BannerModel.deleteMany in
  let createPromise := BannerModel.create (JObj (body req)) in
  try_catch
    (let* (banner, _) := promise_all2 createPromise deletePromise in
     ret (res_json (JObj [("success", JBool true); ("banner", banner)])
            (res_status 200 res)))
    (fun err =>
       ret (res_json (JObj [("success", JBool false);
                            ("message", JStr (message err))])
              (res_status 500 res))).

(** *** Vocabulary of the statements *)

(** The state after one more operation has been issued. *)
Definition logged (ev : Event) (st : State) : State :=
set_trace (fun t => t ++ [ev]) st.

Definition invalid_credentials : Response :=
mkResponse 401 (JObj [("error", JStr "Invalid email or password")]) [] [].
Definition email_failed : Response :=
mkResponse 500 (JObj [("message", JStr "Email didn't sent")]) [] [].
Definition user_didnt_found : Response :=
mkResponse 404 (JObj [("message", JStr "User didn't found!")]) [] [].
Definition user_not_found : Response :=
mkResponse 404 (JObj [("error", JStr "User not found")]) [] [].
Definition succeeded (text : string) : Response :=
mkResponse 200 (JObj [("success", JBool true); ("message", JStr text)]) [] [].

(** The id passes the guard [id && isValidObjectId(id)]. *)
Definition well_formed (id : Json) : bool := truthy id && isValidObjectId id.

(** The id passes the guard and the lookup yields the mentor [m] under [k]. *)
Definition mentor_resolves (env : Env) (st : State) (id : Json)
  (k : ObjectId) (m : Mentor.t) : Prop :=
well_formed id = true /\ rejects env OpFindMentor = false
/\ castObjectId id = Some k /\ mentors st !! k = Some m.

Definition user_resolves (env : Env) (st : State) (id : Json)
  (k : ObjectId) (u : User.t) : Prop :=
well_formed id = true /\ rejects env OpFindUser = false
/\ castObjectId id = Some k /\ users st !! k = Some u.

(** The mentor collection once the profile a user points to is gone. *)
Definition without_profile (mi : option ObjectId)
  (ms : gmap ObjectId Mentor.t) : gmap ObjectId Mentor.t :=
match mi with Some k => delete k ms | None => ms end.

(** The order in which the two deletions of the cascade reach the store. *)
Definition cascade_events (env : Env) (k : ObjectId) (mi : option ObjectId)
  : list Event :=
if in_order env then [EDeleteUser k; EDeleteMentor mi]
else [EDeleteMentor mi; EDeleteUser k].

(** A run that committed its mutation and then failed to notify: the answer
  is the e-mail failure, the collections are the mutated ones, nothing was
  delivered, and in the trace the lookup and the mutations come before the
  attempt to send. *)
Definition committed_then_mail_failed (st : State) (run : Result Response * State)
  (after : list Admin.t * gmap ObjectId Mentor.t * gmap ObjectId User.t * list Json)
  (lookup : Event) (mutations : list Event) (mail : Mail) : Prop :=
fst run = Ok email_failed
/\ store (snd run) = after
/\ outbox (snd run) = outbox st
/\ trace (snd run) = trace st ++ lookup :: mutations ++ [ESendEmail mail].


(** The contract of a cascade on a resolvable id: a run that answers has
    removed both records and tried the mail only after both deletions; two
    deletions that go through make the run answer; a rejected deletion
    leaves the run without an answer and the mail service untouched. *)
Definition awaits_cascade (handler : Request -> M Response)
    (id_of : Request -> Json) : Prop :=
  forall (req : Request) (env : Env) (st : State) (k : ObjectId) (u : User.t),
    user_resolves env st (id_of req) k u ->
    (forall answer st',
        handler req env st = (Ok answer, st') ->
        users st' !! k = None
        /\ (forall p, User.mentor_information u = Some p -> mentors st' !! p = None)
        /\ status answer = (if rejects env OpSendEmail then 500 else 200)%Z
        /\ exists mail,
             trace st' = trace st ++ EFindUser (id_of req)
                           :: cascade_events env k (User.mentor_information u)
                           ++ [ESendEmail mail])
    /\ (rejects env OpDeleteUser = false ->
        rejects env OpDeleteMentor = false ->
        exists answer st', handler req env st = (Ok answer, st'))
    /\ (rejects env OpDeleteUser = true \/ rejects env OpDeleteMentor = true ->
        exists e st',
          handler req env st = (Throw e, st')
          /\ List.filter is_mail_event (trace st')
             = List.filter is_mail_event (trace st)
          /\ outbox st' = outbox st).

(** What the caller sees of a run: the status of the answer, or the error of
  a handler that gave none. *)
Definition outcome (r : Result Response) : Error + Z :=
match r with Ok answer => inr (status answer) | Throw e => inl e end.

(** The cascade both [rejectMentor] and [deleteUser] go through, following
  the spec ("same cascade as reject, different notification template"):
  resolve the user, delete the user and the linked profile together, then
  notify; the id, the answers and the mail are the parameters. *)
Definition cascade (id : Json) (nf : Response) (subject html : UserDoc -> string)
  (done : Response) : M Response :=
let* user :=
  (if truthy id && isValidObjectId id then UserModel_findById id
   else ret None) in
match user with
| None => ret nf
| Some user =>
    promise_all2 (user_delete user)
                 (MentorModel_deleteOne (User.mentor_information (snd user)));;
    try_catch
      (sendEmail (User.email (snd user)) (subject user) (html user);;
       ret done)
      (fun err => ret email_failed)
end.

End Controller.

(** ** A reference instance of the collaborators

    Used to run the handlers on concrete requests. *)

Definition is_hex (c : Ascii.ascii) : bool :=
  let n := Ascii.nat_of_ascii c in
  ((48 <=? n) && (n <=? 57) || (97 <=? n) && (n <=? 102)
   || (65 <=? n) && (n <=? 70))%nat.

(** An id is well formed when it is a string of 24 hexadecimal digits. *)
Definition hex24 (j : Json) : bool :=
  match j with
  | JStr s => (String.length s =? 24)%nat && forallb is_hex (String.list_ascii_of_string s)
  | _ => false
  end.

Definition cast24 (j : Json) : option ObjectId :=
  match j with
  | JStr s => if hex24 j then Some s else None
  | _ => None
  end.

Definition render (template : string) (context : Json) : string :=
  match context with
  | JObj [(k, JStr v)] => template +:+ "?" +:+ k +:+ "=" +:+ v
  | JObj [(k, JBool true)] => template +:+ "?" +:+ k +:+ "=true"
  | JObj [(k, JBool false)] => template +:+ "?" +:+ k +:+ "=false"
  | _ => template
  end.

Definition sha (s : string) : string := "sha:" +:+ s.

Definition password_matches (a : Admin.t) (candidate : Json) : bool :=
  match candidate with
  | JStr p => String.eqb (sha p) (Admin.password a)
  | _ => false
  end.

(** Modelled from the spec: the passcode methods of the Admin schema are not
    part of the sources.  Section 4.1: issuing draws a passcode, stores its
    hash with an expiry and so replaces any pending one, and persists the
    account. *)
Definition spec_generateOTP (ttl : Z) (a : Admin.t) : M (string * Admin.t) :=
  let* env := ask in
  let a' := Admin.set_otp
              (Some (Otp.mk (sha (fresh_otp env)) (now env + ttl) false)) a in
  AdminModel.save a';;
  ret (fresh_otp env, a').

(** Modelled from the spec: verification fails closed (section 4.1): no
    pending passcode, an expired one, a consumed one or a wrong candidate all
    give [false]; a match marks the passcode consumed and persists that. *)
Definition spec_verifyOTP (a : Admin.t) (candidate : Json) : M (bool * Admin.t) :=
  let* env := ask in
  match Admin.otp a, candidate with
  | Some o, JStr c =>
      if Otp.consumed o || (Otp.expiry o <=? now env)%Z
         || negb (String.eqb (sha c) (Otp.hash o))
      then ret (false, a)
      else
        let a' := Admin.set_otp (Some (Otp.mk (Otp.hash o) (Otp.expiry o) true)) a in
        AdminModel.save a';;
        ret (true, a')
  | _, _ => ret (false, a)
  end.

Definition reference : Externals := {|
  isValidObjectId := hex24;
  castObjectId := cast24;
  makeTemplate := render;
  comparePassword := password_matches;
  generateOTP := spec_generateOTP 300;
  verifyOTP := spec_verifyOTP;
  issueToken := fun a => "token:" +:+ Admin._id a
|}.

(** *** A small world *)

Definition id_mentor : ObjectId := "5f1d7f3e2c4b1a0012345678".
Definition id_user : ObjectId := "5f1d7f3e2c4b1a00123456ab".

Definition ada : Admin.t :=
  Admin.mk "5f1d7f3e2c4b1a0000000001" "Ada" "a@x.com" (sha "right")
           (Some (Otp.mk (sha "424242") 1000 false)).

Definition maya : Mentor.t := Mentor.mk "maya@x.com" false false.
Definition uma : User.t := User.mk "uma@x.com" (Some id_mentor).

Definition spring : Json := JObj [("text", JStr "Spring cohort")].

Definition world : State := {|
  admins := [ada];
  mentors := {[ id_mentor := maya ]};
  users := {[ id_user := uma ]};
  banners := [spring];
  outbox := [];
  trace := []
|}.

Definition nothing_rejects : Op -> bool := fun _ => false.
Definition mail_rejects : Op -> bool :=
  fun op => match op with OpSendEmail => true | _ => false end.
Definition create_rejects : Op -> bool :=
  fun op => match op with OpCreateBanner => true | _ => false end.
Definition user_delete_rejects : Op -> bool :=
  fun op => match op with OpDeleteUser => true | _ => false end.

Definition calm : Env := mkEnv nothing_rejects false 500 "424242" "msg-1".
Definition mail_down : Env := mkEnv mail_rejects false 500 "424242" "msg-1".

Definition with_body (b : list (string * Json)) : Request :=
  mkRequest JUndefined JUndefined b [] [].
Definition with_query (q : list (string * Json)) : Request :=
  mkRequest JUndefined JUndefined [] q [].
Definition with_params (p : list (string * Json)) : Request :=
  mkRequest JUndefined JUndefined [] [] p.


Definition racy : Env := mkEnv nothing_rejects true 500 "424242" "msg-1".
Definition create_fails : Env := mkEnv create_rejects false 500 "424242" "msg-1".
Definition user_delete_fails : Env :=
  mkEnv user_delete_rejects false 500 "424242" "msg-1".

Definition summer : Json := JObj [("text", JStr "Summer cohort")].

(** *** Requests against the small world *)

Definition approve_maya : Request := with_body [("id", JStr id_mentor)].
Definition reject_uma : Request := with_query [("id", JStr id_user)].
Definition delete_uma : Request := with_params [("id", JStr id_user)].
Definition login_stranger : Request :=
  with_body [("email", JStr "nobody@x.com"); ("password", JStr "right")].
Definition login_wrong : Request :=
  with_body [("email", JStr "a@x.com"); ("password", JStr "wrong")].
Definition verify_ada : Request :=
  with_body [("email", JStr "a@x.com"); ("otp", JStr "424242")].
Definition put_summer : Request := with_body [("text", JStr "Summer cohort")].

(** Ada once her pending passcode has been used. *)
Definition ada_verified : Admin.t :=
  Admin.set_otp (Some (Otp.mk (sha "424242") 1000 true)) ada.

(** ** The rest of the controller *)

(** What [new AdminModel({ name, email, password })] makes of the three
    values once the schema's hooks have run: the schema is outside the
    sources, so the constructor is a parameter. *)
Class AdminSchema := {
  AdminModel_new : Json -> Json -> Json -> Env -> Admin.t
}.

(** [admin.save()] on a document that is new: an insert. *)
Definition admin_save_new (admin : Admin.t) : M unit :=
  issue OpSaveAdmin (ESaveAdmin admin) (PersistenceError OpSaveAdmin);;
  modify (set_admins (fun accounts => accounts ++ [admin])).

Definition createAdmin `{AdminSchema} (req : Request) : M Response :=
  let name := prop "name" (body req) in
  let email := prop "email" (body req) in
  let password := prop "password" (body req) in
  let* env := ask in
  let admin := AdminModel_new name email password env in
  admin_save_new admin;;
  ret (res_json (JObj [("message", JStr "Admin Created Successfully")])
         (res_status 201 res)).

(** Two runs agree on what the caller sees: the same answer, or no answer
    from either. *)
Definition same_answer (r r' : Result Response) : Prop :=
  match r, r' with
  | Ok a, Ok a' => a = a'
  | Throw _, Throw _ => True
  | _, _ => False
  end.

(** The collections a handler of the mentor collection must leave alone. *)
Definition keeps_other_collections (st st' : State) : Prop :=
  admins st' = admins st /\ users st' = users st /\ banners st' = banners st.

(** A reference constructor: the password is stored hashed, no passcode is
    pending, and values that are not strings read as empty. *)
Definition text (j : Json) : string :=
  match j with JStr s => s | _ => "" end.

Definition reference_schema : AdminSchema := {|
  AdminModel_new := fun name email password _ =>
    Admin.mk ("new:" +:+ text email) (text name) (text email)
             (sha (text password)) None
|}.

Definition delete_rejects : Op -> bool :=
  fun op => match op with OpDeleteBanners => true | _ => false end.
Definition delete_fails : Env := mkEnv delete_rejects false 500 "424242" "msg-1".
Definition save_rejects : Op -> bool :=
  fun op => match op with OpSaveAdmin => true | _ => false end.
Definition save_fails : Env := mkEnv save_rejects false 500 "424242" "msg-1".

Definition login_ada : Request :=
  with_body [("email", JStr "a@x.com"); ("password", JStr "right")].
Definition verify_ada_wrong : Request :=
  with_body [("email", JStr "a@x.com"); ("otp", JStr "000000")].
Definition create_bob : Request :=
  with_body [("name", JStr "Bob"); ("email", JStr "b@x.com");
             ("password", JStr "secret")].
Definition create_bob_noisy : Request :=
  mkRequest (JStr "someone") (JObj [("adminToken", JStr "t")])
            [("role", JStr "root"); ("name", JStr "Bob"); ("email", JStr "b@x.com");
             ("password", JStr "secret")] [] [].

(** Ada with the passcode a login under [calm] issues. *)
Definition ada_pending : Admin.t :=
  Admin.set_otp (Some (Otp.mk (sha "424242") 800 false)) ada.

(** ** A second instance: the check and the cast as the BSON library has them

    Behind Mongoose's [isValidObjectId] is the BSON library's
    [ObjectId.isValid], which accepts every number, every string of 12
    characters and every string of 24 hexadecimal digits.  The cast of
    [findById] goes through the string form of the value: 24 hexadecimal
    digits are read case-insensitively, 12 characters are taken as the 12
    bytes of the id, and anything else is a cast error.  So the check lets
    through values the cast refuses: the numbers whose decimal form is not
    12 characters long. *)

Definition hex_digit (n : nat) : Ascii.ascii :=
  Ascii.ascii_of_nat (if (n <? 10)%nat then 48 + n else 87 + n).

Fixpoint hex_encode (s : string) : string :=
  match s with
  | EmptyString => EmptyString
  | String c rest =>
      let n := Ascii.nat_of_ascii c in
      String (hex_digit (n / 16)) (String (hex_digit (n mod 16)) (hex_encode rest))
  end.

Definition lower (c : Ascii.ascii) : Ascii.ascii :=
  let n := Ascii.nat_of_ascii c in
  if ((65 <=? n) && (n <=? 90))%nat then Ascii.ascii_of_nat (n + 32) else c.

Fixpoint lower_string (s : string) : string :=
  match s with
  | EmptyString => EmptyString
  | String c rest => String (lower c) (lower_string rest)
  end.

Definition bson_isValid (j : Json) : bool :=
  match j with
  | JNum _ => true
  | JStr s => (String.length s =? 12)%nat || hex24 j
  | _ => false
  end.

Definition cast_string (s : string) : option ObjectId :=
  if hex24 (JStr s) then Some (lower_string s)
  else if (String.length s =? 12)%nat then Some (hex_encode s)
  else None.

Definition bson_cast (j : Json) : option ObjectId :=
  match j with
  | JStr s => cast_string s
  | JNum n => cast_string (pretty n)
  | _ => None
  end.

Definition bson : Externals := {|
  isValidObjectId := bson_isValid;
  castObjectId := bson_cast;
  makeTemplate := render;
  comparePassword := password_matches;
  generateOTP := spec_generateOTP 300;
  verifyOTP := spec_verifyOTP;
  issueToken := fun a => "token:" +:+ Admin._id a
|}.

Definition approve_123 : Request := with_body [("id", JNum 123)].

(** * Properties *)

Section Properties.
Context `{Externals}.

(** ** Running the primitive operations *)

Lemma issue_resolves op ev e env st :
  rejects env op = false -> issue op ev e env st = (Ok tt, logged ev st).
Proof. intros Hop. unfold issue, logged. now rewrite Hop. Qed.

Lemma issue_rejects op ev e env st :
  rejects env op = true -> issue op ev e env st = (Throw e, logged ev st).
Proof. intros Hop. unfold issue, logged. now rewrite Hop. Qed.

Lemma findOne_resolves email env st :
  rejects env OpFindAdmin = false ->
  AdminModel.findOne email env st
  = (Ok (List.find (matches_email email) (admins st)), logged (EFindAdmin email) st).
Proof.
  intros Hop. unfold AdminModel.findOne, bind.
  rewrite (issue_resolves _ _ _ _ _ Hop). reflexivity.
Qed.

Lemma MentorModel_findById_resolves id k env st :
  rejects env OpFindMentor = false ->
  castObjectId id = Some k ->
  MentorModel_findById id env st
  = (Ok (pair k <$> mentors st !! k), logged (EFindMentor id) st).
Proof.
  intros Hop Hcast. unfold MentorModel_findById, bind.
  rewrite (issue_resolves _ _ _ _ _ Hop), Hcast. cbn.
  now destruct (mentors st !! k).
Qed.

Lemma UserModel_findById_resolves id k env st :
  rejects env OpFindUser = false ->
  castObjectId id = Some k ->
  UserModel_findById id env st
  = (Ok (pair k <$> users st !! k), logged (EFindUser id) st).
Proof.
  intros Hop Hcast. unfold UserModel_findById, bind.
  rewrite (issue_resolves _ _ _ _ _ Hop), Hcast. cbn.
  now destruct (users st !! k).
Qed.

(** The two deletions of the cascade touch different collections: whichever
    reaches the store first, the collections end up the same. *)
Lemma cascade_deletions_commute (user : UserDoc) env st :
  store (snd (promise_all2 (user_delete user)
                 (MentorModel_deleteOne (User.mentor_information (snd user)))
                 env st))
  = (admins st,
     (if rejects env OpDeleteMentor then mentors st
      else without_profile (User.mentor_information (snd user)) (mentors st)),
     (if rejects env OpDeleteUser then users st else delete (fst user) (users st)),
     banners st).
Proof.
  unfold promise_all2, user_delete, MentorModel_deleteOne, bind, issue, modify.
  destruct (in_order env), (rejects env OpDeleteUser), (rejects env OpDeleteMentor);
    reflexivity.
Qed.

(** ** Authentication *)

(** C4. [adminAuth] (whoAmI) never fails: whatever the request, it answers
    200, leaves the state as it found it, and reports [isLoggedIn] as the
    truthiness of the attached principal, so [false] when none is attached;
    the body carries no [error]. *)
Theorem adminAuth_never_fails (req : Request) (env : Env) (st : State) :
  exists fields,
    adminAuth req env st = (Ok (mkResponse 200 (JObj fields) [] []), st)
    /\ prop "isLoggedIn" fields = JBool (truthy (user req))
    /\ prop "error" fields = JUndefined.
Proof.
  unfold adminAuth. destruct (truthy (user req)); cbn; eexists; eauto.
Qed.

Lemma adminLogin_unknown_email req env st :
  rejects env OpFindAdmin = false ->
  List.find (matches_email (prop "email" (body req))) (admins st) = None ->
  adminLogin req env st
  = (Ok invalid_credentials, logged (EFindAdmin (prop "email" (body req))) st).
Proof.
  intros Hop Hnone. unfold adminLogin, bind.
  rewrite (findOne_resolves _ _ _ Hop), Hnone. reflexivity.
Qed.

Lemma adminLogin_wrong_password req env st admin :
  rejects env OpFindAdmin = false ->
  List.find (matches_email (prop "email" (body req))) (admins st) = Some admin ->
  comparePassword admin (prop "password" (body req)) = false ->
  adminLogin req env st
  = (Ok invalid_credentials, logged (EFindAdmin (prop "email" (body req))) st).
Proof.
  intros Hop Hsome Hpw. unfold adminLogin, bind.
  rewrite (findOne_resolves _ _ _ Hop), Hsome, Hpw. reflexivity.
Qed.

(** C3. A login with an address no account has and a login with a wrong
    password for an existing account get the same answer: status 401 and
    the same error payload. *)
Theorem adminLogin_no_enumeration
    (req1 req2 : Request) (env1 env2 : Env) (st1 st2 : State) (admin : Admin.t) :
  rejects env1 OpFindAdmin = false ->
  rejects env2 OpFindAdmin = false ->
  List.find (matches_email (prop "email" (body req1))) (admins st1) = None ->
  List.find (matches_email (prop "email" (body req2))) (admins st2) = Some admin ->
  comparePassword admin (prop "password" (body req2)) = false ->
  fst (adminLogin req1 env1 st1) = fst (adminLogin req2 env2 st2)
  /\ fst (adminLogin req1 env1 st1)
     = Ok (mkResponse 401 (JObj [("error", JStr "Invalid email or password")]) [] []).
Proof.
  intros Hop1 Hop2 Hnone Hsome Hpw.
  rewrite (adminLogin_unknown_email _ _ _ Hop1 Hnone).
  rewrite (adminLogin_wrong_password _ _ _ _ Hop2 Hsome Hpw).
  split; reflexivity.
Qed.

(** C2. When the account exists and the passcode engine accepts the
    candidate, [adminVerifyOtp] answers 200, sets the cookie [adminToken],
    http-only, with a lifetime of 24 hours (86400 seconds, given to Express
    in milliseconds), and returns the account: the body is the message and
    the document the handler holds, which it passes on whole; serialised as
    the spec has the schema do it ([Admin.toJSON]), the body names neither
    the password hash nor the passcode state. *)
Theorem adminVerifyOtp_accepts
    (req : Request) (env : Env) (st st' : State) (admin admin' : Admin.t) :
  rejects env OpFindAdmin = false ->
  List.find (matches_email (prop "email" (body req))) (admins st) = Some admin ->
  verifyOTP admin (prop "otp" (body req)) env
            (logged (EFindAdmin (prop "email" (body req))) st)
  = (Ok (true, admin'), st') ->
  exists answer,
    adminVerifyOtp req env st = (Ok answer, st')
    /\ status answer = 200%Z
    /\ set_cookies answer
       = [mkCookie "adminToken" (issueToken admin') true (86400 * 1000)]
    /\ json answer = JObj [("message", JStr "OTP verified");
                           ("user", Admin.toJSON admin')]
    /\ mentions "password" (json answer) = false
    /\ mentions "otp" (json answer) = false.
Proof.
  intros Hop Hsome Hotp. unfold adminVerifyOtp, bind.
  rewrite (findOne_resolves _ _ _ Hop), Hsome, Hotp. cbn.
  eexists. repeat split.
Qed.

(** ** Moderation: what a run does once the subject is resolved *)

Ltac run_handler :=
  unfold mentor_save, user_delete, MentorModel_deleteOne, sendEmail,
    BannerModel.create, BannerModel.deleteMany,
    promise_all2, try_catch, bind, ret, throw, modify, ask, get, issue, logged;
  cbn.

Ltac same_state :=
  unfold logged, set_trace, set_mentors, set_users, set_banners, set_outbox,
    set_admins; cbn; rewrite <- ?app_assoc; reflexivity.

Lemma approveMentor_found req env st k m :
  mentor_resolves env st (prop "id" (body req)) k m ->
  rejects env OpSaveMentor = false ->
  let id := prop "id" (body req) in
  let m' := Mentor.set_approved true m in
  let mail := mkMail (Mentor.email m) "Vita Application Approved!"
                     (makeTemplate "acceptMentor.hbs" JUndefined) in
  let st' := mkState (admins st) (<[k := m']> (mentors st)) (users st) (banners st)
                     (outbox st)
                     (trace st ++ [EFindMentor id; ESaveMentor k m'; ESendEmail mail]) in
  approveMentor req env st
  = if rejects env OpSendEmail then (Ok email_failed, st')
    else (Ok (succeeded "Mentor Approved!"), set_outbox (fun o => o ++ [mail]) st').
Proof.
  intros (Hwf & Hfind & Hcast & Hm) Hsave. unfold well_formed in Hwf.
  unfold approveMentor. unfold bind at 1.
  rewrite Hwf, (MentorModel_findById_resolves _ _ _ _ Hfind Hcast), Hm.
  run_handler. rewrite Hsave.
  destruct (rejects env OpSendEmail); same_state.
Qed.

Lemma changeTopMentorStatus_found req env st k m :
  mentor_resolves env st (prop "id" (body req)) k m ->
  rejects env OpSaveMentor = false ->
  let id := prop "id" (body req) in
  let m' := Mentor.set_top_mentor (negb (Mentor.top_mentor m)) m in
  let mail := mkMail (Mentor.email m) "Vita top mentor"
                     (makeTemplate "topMentor.hbs"
                        (JObj [("top_mentor", JBool (negb (Mentor.top_mentor m)))])) in
  let st' := mkState (admins st) (<[k := m']> (mentors st)) (users st) (banners st)
                     (outbox st)
                     (trace st ++ [EFindMentor id; ESaveMentor k m'; ESendEmail mail]) in
  changeTopMentorStatus req env st
  = if rejects env OpSendEmail then (Ok email_failed, st')
    else (Ok (succeeded "Mentor Approved!"), set_outbox (fun o => o ++ [mail]) st').
Proof.
  intros (Hwf & Hfind & Hcast & Hm) Hsave. unfold well_formed in Hwf.
  unfold changeTopMentorStatus. unfold bind at 1.
  rewrite Hwf, (MentorModel_findById_resolves _ _ _ _ Hfind Hcast), Hm.
  run_handler. rewrite Hsave.
  destruct (rejects env OpSendEmail); same_state.
Qed.

(** A rejected save leaves the handler without an answer and the profile as
    it was. *)
Lemma changeTopMentorStatus_save_rejected req env st k m :
  mentor_resolves env st (prop "id" (body req)) k m ->
  rejects env OpSaveMentor = true ->
  exists st',
    changeTopMentorStatus req env st = (Throw (PersistenceError OpSaveMentor), st')
    /\ store st' = store st.
Proof.
  intros (Hwf & Hfind & Hcast & Hm) Hsave. unfold well_formed in Hwf.
  unfold changeTopMentorStatus. unfold bind at 1.
  rewrite Hwf, (MentorModel_findById_resolves _ _ _ _ Hfind Hcast), Hm.
  run_handler. rewrite Hsave. eexists. split; reflexivity.
Qed.

Lemma rejectMentor_is_cascade req :
  rejectMentor req
  = cascade (prop "id" (query req)) user_didnt_found
      (fun _ => "Vita Application rejected")
      (fun _ => makeTemplate "rejectMentor.hbs" JUndefined)
      (succeeded "Mentor rejected successfully!").
Proof. reflexivity. Qed.

Lemma deleteUser_is_cascade req :
  deleteUser req
  = cascade (prop "id" (params req)) user_not_found
      (fun _ => "User account deleted")
      (fun user => makeTemplate "accountDeleted.hbs"
                     (JObj [("email", JStr (User.email (snd user)))]))
      (succeeded "Mentor rejected successfully!").
Proof. reflexivity. Qed.

(** Both deletions went through: the cascade answers according to the mail
    service, over collections that hold neither record. *)
Lemma cascade_deleted id nf subject html done env st k u :
  user_resolves env st id k u ->
  rejects env OpDeleteUser = false ->
  rejects env OpDeleteMentor = false ->
  let mi := User.mentor_information u in
  let mail := mkMail (User.email u) (subject (k, u)) (html (k, u)) in
  let st' := mkState (admins st) (without_profile mi (mentors st))
                     (delete k (users st)) (banners st) (outbox st)
                     (trace st ++ EFindUser id :: cascade_events env k mi
                               ++ [ESendEmail mail]) in
  cascade id nf subject html done env st
  = if rejects env OpSendEmail then (Ok email_failed, st')
    else (Ok done, set_outbox (fun o => o ++ [mail]) st').
Proof.
  intros (Hwf & Hfind & Hcast & Hu) Hdu Hdm. unfold well_formed in Hwf.
  unfold cascade. unfold bind at 1.
  rewrite Hwf, (UserModel_findById_resolves _ _ _ _ Hfind Hcast), Hu.
  run_handler. unfold cascade_events, without_profile. rewrite Hdu, Hdm.
  destruct (in_order env), (rejects env OpSendEmail); same_state.
Qed.

(** A deletion rejected: both deletions were issued all the same, the
    handler gives no answer, and the mail service is never called. *)
Lemma cascade_deletion_rejected id nf subject html done env st k u :
  user_resolves env st id k u ->
  rejects env OpDeleteUser = true \/ rejects env OpDeleteMentor = true ->
  exists e st',
    cascade id nf subject html done env st = (Throw e, st')
    /\ trace st' = trace st ++ EFindUser id
                     :: cascade_events env k (User.mentor_information u)
    /\ outbox st' = outbox st.
Proof.
  intros (Hwf & Hfind & Hcast & Hu) Hrej. unfold well_formed in Hwf.
  unfold cascade. unfold bind at 1.
  rewrite Hwf, (UserModel_findById_resolves _ _ _ _ Hfind Hcast), Hu.
  run_handler. unfold cascade_events.
  destruct (in_order env), (rejects env OpDeleteUser) eqn:Hdu,
    (rejects env OpDeleteMentor) eqn:Hdm;
    try (destruct Hrej; discriminate);
    eexists _, _; (split; [reflexivity | split; [same_state | reflexivity]]).
Qed.



(** The collections a cascade leaves depend on the id, the environment and
    the state it starts from, and on nothing else. *)
Lemma cascade_store_generic id nf1 nf2 subject1 subject2 html1 html2 done1 done2 env st :
  status nf1 = status nf2 ->
  status done1 = status done2 ->
  let run1 := cascade id nf1 subject1 html1 done1 env st in
  let run2 := cascade id nf2 subject2 html2 done2 env st in
  store (snd run1) = store (snd run2)
  /\ List.filter is_store_event (trace (snd run1))
     = List.filter is_store_event (trace (snd run2))
  /\ map mail_to (outbox (snd run1)) = map mail_to (outbox (snd run2))
  /\ outcome (fst run1) = outcome (fst run2).
Proof.
  intros Hnf Hdone. unfold cascade, bind.
  destruct (truthy id && isValidObjectId id);
    [|cbn; rewrite Hnf; repeat split; reflexivity].
  unfold UserModel_findById, bind, issue.
  destruct (rejects env OpFindUser); [cbn; repeat split; reflexivity|].
  destruct (castObjectId id) as [k|]; [|cbn; repeat split; reflexivity].
  cbn. destruct (users st !! k) as [u|];
    [|cbn; rewrite Hnf; repeat split; reflexivity].
  run_handler.
  destruct (in_order env), (rejects env OpDeleteUser),
    (rejects env OpDeleteMentor); cbn;
    try (repeat split; reflexivity);
    destruct (rejects env OpSendEmail); cbn;
    rewrite ?List.filter_app, ?map_app; cbn; rewrite ?app_nil_r, ?Hdone;
    repeat split; reflexivity.
Qed.

(** ** The banner *)

Lemma modifyBanner_delete_first req env st :
  in_order env = false ->
  rejects env OpCreateBanner = false ->
  rejects env OpDeleteBanners = false ->
  modifyBanner req env st
  = (Ok (mkResponse 200 (JObj [("success", JBool true); ("banner", JObj (body req))])
                    [] []),
     mkState (admins st) (mentors st) (users st) [JObj (body req)] (outbox st)
             (trace st ++ [EDeleteBanners; ECreateBanner (JObj (body req))])).
Proof.
  intros Hord Hc Hd. unfold modifyBanner. run_handler.
  rewrite Hord, Hc, Hd. cbn. same_state.
Qed.

Lemma modifyBanner_create_first req env st :
  in_order env = true ->
  rejects env OpCreateBanner = false ->
  rejects env OpDeleteBanners = false ->
  modifyBanner req env st
  = (Ok (mkResponse 200 (JObj [("success", JBool true); ("banner", JObj (body req))])
                    [] []),
     mkState (admins st) (mentors st) (users st) [] (outbox st)
             (trace st ++ [ECreateBanner (JObj (body req)); EDeleteBanners])).
Proof.
  intros Hord Hc Hd. unfold modifyBanner. run_handler.
  rewrite Hord, Hc, Hd. cbn. same_state.
Qed.

(** C10. [modifyBanner] is not atomic: when persisting the new banner
    rejects, the handler answers 500 with the error's message, yet the
    delete-all has been issued all the same and is not undone; when it goes
    through, the store is left without any banner. *)
Theorem modifyBanner_not_atomic (req : Request) (env : Env) (st : State) :
  rejects env OpCreateBanner = true ->
  exists e st',
    modifyBanner req env st
    = (Ok (mkResponse 500 (JObj [("success", JBool false);
                                 ("message", JStr (message e))]) [] []), st')
    /\ trace st'
       = trace st ++ (if in_order env
                      then [ECreateBanner (JObj (body req)); EDeleteBanners]
                      else [EDeleteBanners; ECreateBanner (JObj (body req))])
    /\ banners st' = (if rejects env OpDeleteBanners then banners st else [])
    /\ (rejects env OpDeleteBanners = false -> length (banners st') = 0).
Proof.
  intros Hc. unfold modifyBanner. run_handler. rewrite Hc.
  destruct (in_order env) eqn:Hord, (rejects env OpDeleteBanners) eqn:Hd; cbn;
    [ exists (PersistenceError OpCreateBanner)
    | exists (PersistenceError OpCreateBanner)
    | exists (PersistenceError OpDeleteBanners)
    | exists (PersistenceError OpCreateBanner) ];
    eexists; (split; [reflexivity|]);
    unfold set_trace, set_banners; cbn;
    (split; [rewrite <- app_assoc; reflexivity|]);
    (split; [reflexivity|]); intros; first [reflexivity | discriminate].
Qed.

(** ** Moderation: the claims *)

(** C1. In each of the four moderation workflows, once the mutation went
    through, a mail service that rejects changes nothing of it: the handler
    answers 500 with the e-mail failure, the collections are the mutated
    ones, and the trace has the mutation before the attempt to send. *)
Theorem mutation_survives_mail_failure :
  (forall req env st k m,
      mentor_resolves env st (prop "id" (body req)) k m ->
      rejects env OpSaveMentor = false ->
      rejects env OpSendEmail = true ->
      committed_then_mail_failed st (approveMentor req env st)
        (admins st, <[k := Mentor.set_approved true m]> (mentors st),
         users st, banners st)
        (EFindMentor (prop "id" (body req)))
        [ESaveMentor k (Mentor.set_approved true m)]
        (mkMail (Mentor.email m) "Vita Application Approved!"
                (makeTemplate "acceptMentor.hbs" JUndefined)))
  /\ (forall req env st k m,
      mentor_resolves env st (prop "id" (body req)) k m ->
      rejects env OpSaveMentor = false ->
      rejects env OpSendEmail = true ->
      committed_then_mail_failed st (changeTopMentorStatus req env st)
        (admins st,
         <[k := Mentor.set_top_mentor (negb (Mentor.top_mentor m)) m]> (mentors st),
         users st, banners st)
        (EFindMentor (prop "id" (body req)))
        [ESaveMentor k (Mentor.set_top_mentor (negb (Mentor.top_mentor m)) m)]
        (mkMail (Mentor.email m) "Vita top mentor"
                (makeTemplate "topMentor.hbs"
                   (JObj [("top_mentor", JBool (negb (Mentor.top_mentor m)))]))))
  /\ (forall req env st k u,
      user_resolves env st (prop "id" (query req)) k u ->
      rejects env OpDeleteUser = false ->
      rejects env OpDeleteMentor = false ->
      rejects env OpSendEmail = true ->
      committed_then_mail_failed st (rejectMentor req env st)
        (admins st, without_profile (User.mentor_information u) (mentors st),
         delete k (users st), banners st)
        (EFindUser (prop "id" (query req)))
        (cascade_events env k (User.mentor_information u))
        (mkMail (User.email u) "Vita Application rejected"
                (makeTemplate "rejectMentor.hbs" JUndefined)))
  /\ (forall req env st k u,
      user_resolves env st (prop "id" (params req)) k u ->
      rejects env OpDeleteUser = false ->
      rejects env OpDeleteMentor = false ->
      rejects env OpSendEmail = true ->
      committed_then_mail_failed st (deleteUser req env st)
        (admins st, without_profile (User.mentor_information u) (mentors st),
         delete k (users st), banners st)
        (EFindUser (prop "id" (params req)))
        (cascade_events env k (User.mentor_information u))
        (mkMail (User.email u) "User account deleted"
                (makeTemplate "accountDeleted.hbs"
                   (JObj [("email", JStr (User.email u))])))).
Proof.
  unfold committed_then_mail_failed.
  split; [|split; [|split]].
  - intros req env st k m Hres Hsave Hmail.
    rewrite (approveMentor_found _ _ _ _ _ Hres Hsave). cbn.
    rewrite Hmail. repeat split.
  - intros req env st k m Hres Hsave Hmail.
    rewrite (changeTopMentorStatus_found _ _ _ _ _ Hres Hsave). cbn.
    rewrite Hmail. repeat split.
  - intros req env st k u Hres Hdu Hdm Hmail.
    rewrite rejectMentor_is_cascade.
    rewrite (cascade_deleted _ _ _ _ _ _ _ _ _ Hres Hdu Hdm). cbn.
    rewrite Hmail. repeat split.
  - intros req env st k u Hres Hdu Hdm Hmail.
    rewrite deleteUser_is_cascade.
    rewrite (cascade_deleted _ _ _ _ _ _ _ _ _ Hres Hdu Hdm). cbn.
    rewrite Hmail. repeat split.
Qed.


Lemma cascade_awaits id_of nf subject html done :
  status done = 200%Z ->
  awaits_cascade (fun req => cascade (id_of req) nf subject html done) id_of.
Proof.
  intros Hdone req env st k u Hres. split; [|split].
  - intros answer st' Hrun.
    destruct (rejects env OpDeleteUser) eqn:Hdu.
    { destruct (cascade_deletion_rejected _ nf subject html done _ _ _ _ Hres)
        as (e & st'' & Hthrow & _); [now left|]. congruence. }
    destruct (rejects env OpDeleteMentor) eqn:Hdm.
    { destruct (cascade_deletion_rejected _ nf subject html done _ _ _ _ Hres)
        as (e & st'' & Hthrow & _); [now right|]. congruence. }
    rewrite (cascade_deleted _ nf subject html done _ _ _ _ Hres Hdu Hdm) in Hrun.
    cbn in Hrun.
    destruct (rejects env OpSendEmail); inversion Hrun; subst; cbn;
      (split; [apply lookup_delete_eq|]);
      (split; [intros p Hp; rewrite Hp; apply lookup_delete_eq|]);
      (split; [first [reflexivity | exact Hdone]|]);
      eexists; reflexivity.
  - intros Hdu Hdm.
    rewrite (cascade_deleted _ nf subject html done _ _ _ _ Hres Hdu Hdm).
    cbn. destruct (rejects env OpSendEmail); eexists _, _; reflexivity.
  - intros Hrej.
    destruct (cascade_deletion_rejected _ nf subject html done _ _ _ _ Hres Hrej)
      as (e & st' & Hthrow & Htrace & Hout).
    exists e, st'. split; [exact Hthrow|]. split; [|exact Hout].
    rewrite Htrace, List.filter_app. unfold cascade_events.
    destruct (in_order env); cbn; apply app_nil_r.
Qed.

(** C8. [rejectMentor] and [deleteUser] on a resolvable id: a run that
    answers has both the user and the linked profile gone from the store,
    with status 500 when the mail service rejects and 200 otherwise, and in
    its trace both deletions come before the attempt to send; two deletions
    that go through make the run answer; when either deletion rejects the
    handler gives no answer and the mail service is not called. *)
Theorem cascade_awaited_before_notification :
  awaits_cascade rejectMentor (fun req => prop "id" (query req))
  /\ awaits_cascade deleteUser (fun req => prop "id" (params req)).
Proof.
  split; intros req env st k u Hres.
  - rewrite rejectMentor_is_cascade.
    now apply (cascade_awaits (fun req => prop "id" (query req))).
  - rewrite deleteUser_is_cascade.
    now apply (cascade_awaits (fun req => prop "id" (params req))
                 user_not_found (fun _ => "User account deleted")
                 (fun user => makeTemplate "accountDeleted.hbs"
                                (JObj [("email", JStr (User.email (snd user)))]))).
Qed.

(** C9. [deleteUser] does to the store what [rejectMentor] does: for every
    state, environment and id the two runs leave the same collections, issue
    the same store operations, write to the same address and end with the
    same status; what differs is the mail's subject and template and the
    text of the not-found answer. *)
Theorem deleteUser_same_cascade
    (req1 req2 : Request) (env : Env) (st : State) :
  prop "id" (query req1) = prop "id" (params req2) ->
  let run1 := rejectMentor req1 env st in
  let run2 := deleteUser req2 env st in
  store (snd run1) = store (snd run2)
  /\ List.filter is_store_event (trace (snd run1))
     = List.filter is_store_event (trace (snd run2))
  /\ map mail_to (outbox (snd run1)) = map mail_to (outbox (snd run2))
  /\ outcome (fst run1) = outcome (fst run2).
Proof.
  intros Hid. rewrite rejectMentor_is_cascade, deleteUser_is_cascade, Hid.
  now apply cascade_store_generic.
Qed.

(** A run of [changeTopMentorStatus] that answers 200 has stored the profile
    with its flag negated. *)
Lemma changeTopMentorStatus_answered req env st st' answer k m :
  castObjectId (prop "id" (body req)) = Some k ->
  mentors st !! k = Some m ->
  changeTopMentorStatus req env st = (Ok answer, st') ->
  status answer = 200%Z ->
  mentors st'
  = <[k := Mentor.set_top_mentor (negb (Mentor.top_mentor m)) m]> (mentors st).
Proof.
  intros Hcast Hm Hrun Hstatus.
  destruct (well_formed (prop "id" (body req))) eqn:Hwf.
  2: { unfold well_formed in Hwf. unfold changeTopMentorStatus, bind in Hrun.
       rewrite Hwf in Hrun. cbn in Hrun. inversion Hrun; subst. discriminate. }
  destruct (rejects env OpFindMentor) eqn:Hfind.
  { unfold well_formed in Hwf.
    unfold changeTopMentorStatus, MentorModel_findById, bind in Hrun.
    rewrite Hwf, (issue_rejects _ _ _ _ _ Hfind) in Hrun. discriminate. }
  assert (Hres : mentor_resolves env st (prop "id" (body req)) k m)
    by (repeat split; assumption).
  destruct (rejects env OpSaveMentor) eqn:Hsave.
  { destruct (changeTopMentorStatus_save_rejected _ _ _ _ _ Hres Hsave)
      as (st'' & Hthrow & _). congruence. }
  rewrite (changeTopMentorStatus_found _ _ _ _ _ Hres Hsave) in Hrun. cbn in Hrun.
  destruct (rejects env OpSendEmail); inversion Hrun; subst; [discriminate|].
  reflexivity.
Qed.

(** C7. [changeTopMentorStatus] is its own inverse on the flag: for an
    existing mentor, one call that answers 200 stores the negated flag, and a
    second call that answers 200 puts the flag, and with it the whole
    profile and collection, back as they were. *)
Theorem changeTopMentorStatus_involution
    (req : Request) (env1 env2 : Env) (st st1 st2 : State)
    (answer1 answer2 : Response) (k : ObjectId) (m : Mentor.t) :
  castObjectId (prop "id" (body req)) = Some k ->
  mentors st !! k = Some m ->
  changeTopMentorStatus req env1 st = (Ok answer1, st1) ->
  status answer1 = 200%Z ->
  changeTopMentorStatus req env2 st1 = (Ok answer2, st2) ->
  status answer2 = 200%Z ->
  Mentor.top_mentor <$> mentors st1 !! k = Some (negb (Mentor.top_mentor m))
  /\ Mentor.top_mentor <$> mentors st2 !! k = Some (Mentor.top_mentor m)
  /\ mentors st2 = mentors st.
Proof.
  intros Hcast Hm Hrun1 Hst1 Hrun2 Hst2.
  pose proof (changeTopMentorStatus_answered _ _ _ _ _ _ _ Hcast Hm Hrun1 Hst1)
    as Hms1.
  assert (Hm1 : mentors st1 !! k
                = Some (Mentor.set_top_mentor (negb (Mentor.top_mentor m)) m))
    by (rewrite Hms1; apply lookup_insert_eq).
  pose proof (changeTopMentorStatus_answered _ _ _ _ _ _ _ Hcast Hm1 Hrun2 Hst2)
    as Hms2.
  assert (Hback : mentors st2 = mentors st).
  { rewrite Hms2, Hms1, insert_insert_eq. cbn. rewrite negb_involutive.
    destruct m; cbn. now apply insert_id. }
  split; [now rewrite Hm1|]. split; [|exact Hback].
  now rewrite Hback, Hm.
Qed.

End Properties.

(** * The properties on the small world *)

Lemma adminLogin_no_enumeration_witness :
  fst (adminLogin (H:=reference) login_stranger calm world)
  = fst (adminLogin (H:=reference) login_wrong calm world)
  /\ fst (adminLogin (H:=reference) login_stranger calm world)
     = Ok invalid_credentials.
Proof.
  apply (adminLogin_no_enumeration (H:=reference)
           login_stranger login_wrong calm calm world world ada);
    reflexivity.
Defined.

Lemma adminVerifyOtp_accepts_witness :
  exists answer,
    fst (adminVerifyOtp (H:=reference) verify_ada calm world) = Ok answer
    /\ status answer = 200%Z
    /\ set_cookies answer
       = [mkCookie "adminToken" "token:5f1d7f3e2c4b1a0000000001" true 86400000]
    /\ mentions "password" (json answer) = false
    /\ mentions "otp" (json answer) = false.
Proof.
  destruct (adminVerifyOtp_accepts (H:=reference) verify_ada calm world
              (snd (adminVerifyOtp (H:=reference) verify_ada calm world))
              ada ada_verified)
    as (answer & Hrun & Hstatus & Hcookie & _ & Hpw & Hotp);
    [reflexivity | reflexivity | vm_compute; reflexivity |].
  exists answer. rewrite Hrun. repeat split; assumption.
Defined.

Lemma mutation_survives_mail_failure_witness :
  fst (approveMentor (H:=reference) approve_maya mail_down world) = Ok email_failed
  /\ mentors (snd (approveMentor (H:=reference) approve_maya mail_down world))
       !! id_mentor
     = Some (Mentor.mk "maya@x.com" true false)
  /\ fst (rejectMentor (H:=reference) reject_uma mail_down world) = Ok email_failed
  /\ users (snd (rejectMentor (H:=reference) reject_uma mail_down world)) = ∅.
Proof.
  destruct (mutation_survives_mail_failure (H:=reference))
    as (Happrove & _ & Hreject & _).
  destruct (Happrove approve_maya mail_down world id_mentor maya)
    as (Hanswer & Hstore & _); [repeat split | reflexivity | reflexivity |].
  destruct (Hreject reject_uma mail_down world id_user uma)
    as (Hanswer' & Hstore' & _);
    [repeat split | reflexivity | reflexivity | reflexivity |].
  split; [exact Hanswer|]. split.
  - change (mentors ?s) with (snd (fst (fst (store s)))).
    rewrite Hstore. vm_compute. reflexivity.
  - split; [exact Hanswer'|].
    change (users ?s) with (snd (fst (store s))).
    rewrite Hstore'. vm_compute. reflexivity.
Defined.


Lemma changeTopMentorStatus_involution_witness :
  let st1 := snd (changeTopMentorStatus (H:=reference) approve_maya calm world) in
  let st2 := snd (changeTopMentorStatus (H:=reference) approve_maya calm st1) in
  Mentor.top_mentor <$> mentors st1 !! id_mentor = Some true
  /\ Mentor.top_mentor <$> mentors st2 !! id_mentor = Some false
  /\ mentors st2 = mentors world.
Proof.
  intros st1 st2.
  apply (changeTopMentorStatus_involution (H:=reference) approve_maya calm calm
           world st1 st2 (succeeded "Mentor Approved!")
           (succeeded "Mentor Approved!") id_mentor maya);
    vm_compute; reflexivity.
Defined.

Lemma cascade_awaited_before_notification_witness :
  users (snd (rejectMentor (H:=reference) reject_uma mail_down world)) !! id_user
  = None
  /\ mentors (snd (rejectMentor (H:=reference) reject_uma mail_down world))
       !! id_mentor = None
  /\ (exists e,
        fst (deleteUser (H:=reference) delete_uma user_delete_fails world) = Throw e).
Proof.
  destruct (cascade_awaited_before_notification (H:=reference))
    as (Hreject & Hdelete).
  destruct (Hreject reject_uma mail_down world id_user uma)
    as (Hanswered & Hanswers & _); [repeat split|].
  destruct (Hanswers eq_refl eq_refl) as (answer & st' & Hrun).
  destruct (Hanswered _ _ Hrun) as (Huser & Hprofile & _).
  destruct (Hdelete delete_uma user_delete_fails world id_user uma)
    as (_ & _ & Hrejected); [repeat split|].
  destruct (Hrejected (or_introl eq_refl)) as (e & st'' & Hthrow & _).
  rewrite Hrun, Hthrow. cbn.
  split; [exact Huser|]. split; [now apply Hprofile|]. now exists e.
Defined.

Lemma deleteUser_same_cascade_witness :
  store (snd (rejectMentor (H:=reference) reject_uma mail_down world))
  = store (snd (deleteUser (H:=reference) delete_uma mail_down world))
  /\ outcome (fst (rejectMentor (H:=reference) reject_uma mail_down world))
     = outcome (fst (deleteUser (H:=reference) delete_uma mail_down world)).
Proof.
  destruct (deleteUser_same_cascade (H:=reference) reject_uma delete_uma
              mail_down world) as (Hstore & _ & _ & Hout); [reflexivity|].
  split; assumption.
Defined.

Lemma modifyBanner_not_atomic_witness :
  banners world = [spring]
  /\ exists e st',
      modifyBanner put_summer create_fails world
      = (Ok (mkResponse 500 (JObj [("success", JBool false);
                                   ("message", JStr (message e))]) [] []), st')
      /\ banners st' = [].
Proof.
  split; [reflexivity|].
  destruct (modifyBanner_not_atomic put_summer create_fails world)
    as (e & st' & Hrun & _ & Hbanners & _); [reflexivity|].
  exists e, st'. split; [exact Hrun | exact Hbanners].
Defined.

(** C6. The replace-all of [modifyBanner] rests on the delete-all reaching
    the store before the insert, and nothing in the handler orders the two:
    they are awaited together.  Here the new banner is stored first; the
    delete-all then removes it with the old one, and the handler still
    answers 200 with the banner it created.  A second call under the same
    race, after a first one that replaced the banner, leaves no banner
    either, where one matching the second payload is expected. *)
Theorem modifyBanner_race_loses_banner :
  banners world = [spring]
  /\ (exists st',
        modifyBanner put_summer racy world
        = (Ok (mkResponse 200 (JObj [("success", JBool true); ("banner", summer)])
                          [] []), st')
        /\ banners st' = [])
  /\ (let st1 := snd (modifyBanner (with_body [("text", JStr "Spring cohort")])
                        calm world) in
      banners st1 = [spring]
      /\ outcome (fst (modifyBanner put_summer racy st1)) = inr 200%Z
      /\ banners (snd (modifyBanner put_summer racy st1)) = []).
Proof.
  split; [reflexivity|]. split.
  - rewrite modifyBanner_create_first by reflexivity.
    eexists. split; reflexivity.
  - cbn zeta. rewrite (modifyBanner_delete_first _ calm world) by reflexivity.
    cbn [snd]. rewrite modifyBanner_create_first by reflexivity.
    repeat split.
Qed.

(** * Further properties of the controller *)

Section Coverage.
Context `{Externals}.

Ltac run_all :=
  unfold mentor_save, user_delete, MentorModel_deleteOne, MentorModel_findById,
    UserModel_findById, AdminModel.findOne, sendEmail, admin_save_new,
    BannerModel.create, BannerModel.deleteMany,
    promise_all2, try_catch, bind, ret, throw, modify, ask, get, issue, logged;
  cbn.

Ltac flat_state :=
  unfold logged, set_trace, set_mentors, set_users, set_banners, set_outbox,
    set_admins; cbn; rewrite <- ?app_assoc; cbn.

(** ** Authentication *)

Lemma adminVerifyOtp_cookie_name
    (req : Request) (env : Env) (st st' : State) (answer : Response) (c : Cookie) :
  adminVerifyOtp req env st = (Ok answer, st') ->
  In c (set_cookies answer) ->
  cookie_name c = "adminToken".
Proof.
  unfold adminVerifyOtp, AdminModel.findOne, bind, issue, get, ret.
  destruct (rejects env OpFindAdmin); [discriminate|].
  cbn. destruct (List.find _ (admins st)) as [admin|].
  - destruct (verifyOTP admin (prop "otp" (body req)) env _)
      as [[[[] admin']|e] st1]; cbn; intros Hrun; inversion Hrun; subst; cbn;
      intros Hin; repeat (destruct Hin as [<- | Hin]; [reflexivity|]);
      destruct Hin.
  - intros Hrun. inversion Hrun; subst. intros [].
Qed.

(** X1. [adminVerifyOtp] sets the session cookie only with a 200: a run that
    answers either answers 200 with exactly the [adminToken] cookie, or
    answers 401 with one of the two error payloads and sets no cookie. *)
Theorem adminVerifyOtp_cookie_only_when_verified
    (req : Request) (env : Env) (st st' : State) (answer : Response) :
  adminVerifyOtp req env st = (Ok answer, st') ->
  (status answer = 200%Z
   /\ exists admin,
       set_cookies answer
       = [mkCookie "adminToken" (issueToken admin) true 86400000])
  \/ (status answer = 401%Z
      /\ set_cookies answer = []
      /\ (json answer = JObj [("error", JStr "Invalid email or password")]
          \/ json answer = JObj [("error", JStr "Invalid OTP")])).
Proof.
  unfold adminVerifyOtp, AdminModel.findOne, bind, issue, get, ret.
  destruct (rejects env OpFindAdmin); [discriminate|].
  cbn. destruct (List.find _ (admins st)) as [admin|].
  - destruct (verifyOTP admin (prop "otp" (body req)) env _)
      as [[[[] admin']|e] st1]; cbn; intros Hrun; inversion Hrun; subst; cbn.
    + left. split; [reflexivity|]. now exists admin'.
    + right. auto.
  - intros Hrun. inversion Hrun; subst. right. cbn. auto.
Qed.

(** X2. For an address no account has, [adminVerifyOtp] behaves exactly as
    [adminLogin] does: the same 401, the same state, the lookup as the only
    operation; the passcode engine is not consulted. *)
Theorem adminVerifyOtp_unknown_account_as_login
    (req : Request) (env : Env) (st : State) :
  rejects env OpFindAdmin = false ->
  List.find (matches_email (prop "email" (body req))) (admins st) = None ->
  adminVerifyOtp req env st = adminLogin req env st
  /\ adminVerifyOtp req env st
     = (Ok invalid_credentials,
        logged (EFindAdmin (prop "email" (body req))) st).
Proof.
  intros Hfind Hnone.
  unfold adminVerifyOtp, adminLogin, AdminModel.findOne, bind, issue, get, ret.
  rewrite Hfind. cbn. rewrite Hnone. split; reflexivity.
Qed.

Lemma adminLogin_password_ok req env st st1 admin admin' otp :
  rejects env OpFindAdmin = false ->
  List.find (matches_email (prop "email" (body req))) (admins st) = Some admin ->
  comparePassword admin (prop "password" (body req)) = true ->
  generateOTP admin env (logged (EFindAdmin (prop "email" (body req))) st)
  = (Ok (otp, admin'), st1) ->
  let mail := mkMail (Admin.email admin') "Vita Admin Login"
                     (makeTemplate "adminOtp.hbs" (JObj [("otp", JStr otp)])) in
  adminLogin req env st
  = if rejects env OpSendEmail
    then (Throw MailError, logged (ESendEmail mail) st1)
    else (Ok (mkResponse 200 (JObj [("message", JStr "Email sent");
                                    ("emailId", JStr (email_id env))]) [] []),
          set_outbox (fun o => o ++ [mail]) (logged (ESendEmail mail) st1)).
Proof.
  intros Hfind Hsome Hpw Hotp.
  unfold adminLogin, AdminModel.findOne. unfold bind at 1 2. unfold issue, get, ret.
  rewrite Hfind. cbn. rewrite Hsome, Hpw. cbn. unfold bind at 1.
  unfold logged in Hotp. rewrite Hotp. run_all.
  destruct (rejects env OpSendEmail); reflexivity.
Qed.

(** X3. A login with the right password, once the passcode is issued and
    the mail goes out, answers 200 with the message and the mail service's
    id, delivers exactly one mail, to the account's address, whose template
    is rendered from the passcode, and sets no cookie; the answer does not
    carry the passcode field. *)
Theorem adminLogin_sends_passcode
    (req : Request) (env : Env) (st st1 : State) (admin admin' : Admin.t)
    (otp : string) :
  rejects env OpFindAdmin = false ->
  List.find (matches_email (prop "email" (body req))) (admins st) = Some admin ->
  comparePassword admin (prop "password" (body req)) = true ->
  generateOTP admin env (logged (EFindAdmin (prop "email" (body req))) st)
  = (Ok (otp, admin'), st1) ->
  rejects env OpSendEmail = false ->
  exists answer st',
    adminLogin req env st = (Ok answer, st')
    /\ status answer = 200%Z
    /\ json answer = JObj [("message", JStr "Email sent");
                           ("emailId", JStr (email_id env))]
    /\ mentions "otp" (json answer) = false
    /\ set_cookies answer = []
    /\ outbox st'
       = outbox st1
         ++ [mkMail (Admin.email admin') "Vita Admin Login"
                    (makeTemplate "adminOtp.hbs" (JObj [("otp", JStr otp)]))]
    /\ store st' = store st1.
Proof.
  intros Hfind Hsome Hpw Hotp Hmail.
  rewrite (adminLogin_password_ok _ _ _ _ _ _ _ Hfind Hsome Hpw Hotp). cbn.
  rewrite Hmail. eexists _, _. repeat split.
Qed.

(** X4. Unlike the moderation handlers, [adminLogin] does not catch a mail
    failure: when the mail service rejects, the handler gives no answer at
    all, although the passcode has been issued by then; whatever the engine
    stored stays stored, and nothing is delivered. *)
Theorem adminLogin_mail_failure_escapes
    (req : Request) (env : Env) (st st1 : State) (admin admin' : Admin.t)
    (otp : string) :
  rejects env OpFindAdmin = false ->
  List.find (matches_email (prop "email" (body req))) (admins st) = Some admin ->
  comparePassword admin (prop "password" (body req)) = true ->
  generateOTP admin env (logged (EFindAdmin (prop "email" (body req))) st)
  = (Ok (otp, admin'), st1) ->
  rejects env OpSendEmail = true ->
  exists st',
    adminLogin req env st = (Throw MailError, st')
    /\ store st' = store st1
    /\ outbox st' = outbox st1
    /\ exists mail, trace st' = trace st1 ++ [ESendEmail mail].
Proof.
  intros Hfind Hsome Hpw Hotp Hmail.
  rewrite (adminLogin_password_ok _ _ _ _ _ _ _ Hfind Hsome Hpw Hotp). cbn.
  rewrite Hmail. eexists. repeat split. eexists. reflexivity.
Qed.

(** X5. [adminLogin] never sets or clears a cookie, and a run that answers
    answers 200 or 401: the session only starts at [adminVerifyOtp]. *)
Theorem adminLogin_sets_no_cookie
    (req : Request) (env : Env) (st st' : State) (answer : Response) :
  adminLogin req env st = (Ok answer, st') ->
  set_cookies answer = [] /\ cleared_cookies answer = []
  /\ (status answer = 200%Z \/ status answer = 401%Z).
Proof.
  unfold adminLogin, AdminModel.findOne, bind, issue, get, ret.
  destruct (rejects env OpFindAdmin); [discriminate|].
  cbn. destruct (List.find _ (admins st)) as [admin|].
  - destruct (comparePassword admin _); cbn.
    + destruct (generateOTP admin env _) as [[[otp admin']|e] st1];
        [|discriminate].
      unfold sendEmail, bind, issue, modify, ask.
      destruct (rejects env OpSendEmail); [discriminate|].
      cbn. intros Hrun. inversion Hrun; subst. cbn. auto.
    + intros Hrun. inversion Hrun; subst. cbn. auto.
  - intros Hrun. inversion Hrun; subst. cbn. auto.
Qed.

(** X6. [adminLogout] clears the cookie [adminVerifyOtp] sets: whatever run
    of [adminVerifyOtp] set a cookie, a logout (any request, any state)
    answers 200, issues nothing, sets no cookie and clears a cookie of that
    very name. *)
Theorem adminLogout_clears_session_cookie
    (req req' : Request) (env env' : Env) (st st1 st' : State)
    (answer : Response) (c : Cookie) :
  adminVerifyOtp req env st = (Ok answer, st1) ->
  In c (set_cookies answer) ->
  exists out,
    adminLogout req' env' st' = (Ok out, st')
    /\ status out = 200%Z
    /\ set_cookies out = []
    /\ In (cookie_name c) (cleared_cookies out).
Proof.
  intros Hrun Hin.
  pose proof (adminVerifyOtp_cookie_name _ _ _ _ _ _ Hrun Hin) as Hname.
  eexists. split; [reflexivity|]. cbn. rewrite Hname. auto.
Qed.

(** ** The mentor collection *)

Lemma approveMentor_mentors req env st k m :
  mentor_resolves env st (prop "id" (body req)) k m ->
  rejects env OpSaveMentor = false ->
  mentors (snd (approveMentor req env st))
  = <[k := Mentor.set_approved true m]> (mentors st).
Proof.
  intros Hres Hsave. rewrite (approveMentor_found _ _ _ _ _ Hres Hsave). cbn.
  now destruct (rejects env OpSendEmail).
Qed.

Lemma changeTopMentorStatus_mentors req env st k m :
  mentor_resolves env st (prop "id" (body req)) k m ->
  rejects env OpSaveMentor = false ->
  mentors (snd (changeTopMentorStatus req env st))
  = <[k := Mentor.set_top_mentor (negb (Mentor.top_mentor m)) m]> (mentors st).
Proof.
  intros Hres Hsave. rewrite (changeTopMentorStatus_found _ _ _ _ _ Hres Hsave).
  cbn. now destruct (rejects env OpSendEmail).
Qed.

(** A mentor that resolved still resolves, under the same key, after the
    profile stored under that key has been rewritten. *)
Lemma mentor_resolves_after env env' st st' id k m m' :
  mentor_resolves env st id k m ->
  rejects env' OpFindMentor = false ->
  mentors st' = <[k := m']> (mentors st) ->
  mentor_resolves env' st' id k m'.
Proof.
  intros (Hwf & _ & Hcast & _) Hfind Hms. repeat split; try assumption.
  rewrite Hms. apply lookup_insert_eq.
Qed.

(** X7. [approveMentor] is idempotent on the store but not on the mail: a
    second successful call on the same mentor leaves the collections as the
    first one left them, answers 200 again, and sends the approval mail a
    second time. *)
Theorem approveMentor_twice
    (req : Request) (env1 env2 : Env) (st : State) (k : ObjectId) (m : Mentor.t) :
  mentor_resolves env1 st (prop "id" (body req)) k m ->
  rejects env1 OpSaveMentor = false ->
  rejects env1 OpSendEmail = false ->
  rejects env2 OpFindMentor = false ->
  rejects env2 OpSaveMentor = false ->
  rejects env2 OpSendEmail = false ->
  let mail := mkMail (Mentor.email m) "Vita Application Approved!"
                     (makeTemplate "acceptMentor.hbs" JUndefined) in
  let st1 := snd (approveMentor req env1 st) in
  let run2 := approveMentor req env2 st1 in
  fst run2 = Ok (succeeded "Mentor Approved!")
  /\ store (snd run2) = store st1
  /\ outbox (snd run2) = outbox st ++ [mail; mail].
Proof.
  intros Hres Hsave1 Hmail1 Hfind2 Hsave2 Hmail2 mail st1 run2.
  assert (Hres2 : mentor_resolves env2 st1 (prop "id" (body req)) k
                    (Mentor.set_approved true m)).
  { apply (mentor_resolves_after env1 env2 st st1 _ k m); try assumption.
    now apply approveMentor_mentors. }
  pose proof (approveMentor_found _ _ _ _ _ Hres Hsave1) as Hrun1.
  pose proof (approveMentor_found _ _ _ _ _ Hres2 Hsave2) as Hrun2.
  cbn zeta in Hrun1, Hrun2. rewrite Hmail1 in Hrun1. rewrite Hmail2 in Hrun2.
  subst run2. rewrite Hrun2. cbn [fst snd].
  split; [reflexivity|]. subst st1. rewrite Hrun1. cbn.
  split.
  - unfold store. cbn. rewrite insert_insert_eq. reflexivity.
  - subst mail. rewrite <- app_assoc. reflexivity.
Qed.

(** X8. Approving and toggling commute: on a mentor that resolves, with
    lookups and saves going through (the mail may fail or not), approving and
    then toggling leaves the mentor collection that toggling and then
    approving leaves. *)
Theorem approve_and_toggle_commute
    (req : Request) (env1 env2 : Env) (st : State) (k : ObjectId) (m : Mentor.t) :
  mentor_resolves env1 st (prop "id" (body req)) k m ->
  rejects env1 OpSaveMentor = false ->
  rejects env2 OpFindMentor = false ->
  rejects env2 OpSaveMentor = false ->
  mentors (snd (changeTopMentorStatus req env2 (snd (approveMentor req env1 st))))
  = mentors (snd (approveMentor req env2 (snd (changeTopMentorStatus req env1 st))))
  /\ mentors (snd (changeTopMentorStatus req env2 (snd (approveMentor req env1 st))))
       !! k
     = Some (Mentor.mk (Mentor.email m) true (negb (Mentor.top_mentor m))).
Proof.
  intros Hres Hsave1 Hfind2 Hsave2.
  pose proof (approveMentor_mentors _ _ _ _ _ Hres Hsave1) as Ha.
  pose proof (changeTopMentorStatus_mentors _ _ _ _ _ Hres Hsave1) as Ht.
  pose proof (mentor_resolves_after _ env2 _ _ _ _ _ _ Hres Hfind2 Ha) as Hres_a.
  pose proof (mentor_resolves_after _ env2 _ _ _ _ _ _ Hres Hfind2 Ht) as Hres_t.
  rewrite (changeTopMentorStatus_mentors _ _ _ _ _ Hres_a Hsave2).
  rewrite (approveMentor_mentors _ _ _ _ _ Hres_t Hsave2).
  rewrite Ha, Ht, !insert_insert_eq. split; [reflexivity|].
  rewrite lookup_insert_eq. reflexivity.
Qed.

(** Whatever the run, [approveMentor] leaves the mentor collection as it
    was or rewrites one existing profile with [approved] set. *)
Lemma approveMentor_effect req env st :
  keeps_other_collections st (snd (approveMentor req env st))
  /\ (mentors (snd (approveMentor req env st)) = mentors st
      \/ exists k m, mentors st !! k = Some m
           /\ mentors (snd (approveMentor req env st))
              = <[k := Mentor.set_approved true m]> (mentors st)).
Proof.
  unfold keeps_other_collections, approveMentor. unfold bind at 1.
  destruct (truthy _ && isValidObjectId _); [|cbn; auto].
  unfold MentorModel_findById, bind, issue.
  destruct (rejects env OpFindMentor); [cbn; auto|].
  destruct (castObjectId _) as [k|]; [|cbn; auto].
  cbn. destruct (mentors st !! k) as [m|] eqn:Hm; [|cbn; auto].
  run_all.
  destruct (rejects env OpSaveMentor); [cbn; auto|].
  destruct (rejects env OpSendEmail); cbn;
    (split; [auto|]); right; exists k, m; auto.
Qed.

Lemma changeTopMentorStatus_effect req env st :
  keeps_other_collections st (snd (changeTopMentorStatus req env st))
  /\ (mentors (snd (changeTopMentorStatus req env st)) = mentors st
      \/ exists k m, mentors st !! k = Some m
           /\ mentors (snd (changeTopMentorStatus req env st))
              = <[k := Mentor.set_top_mentor (negb (Mentor.top_mentor m)) m]>
                  (mentors st)).
Proof.
  unfold keeps_other_collections, changeTopMentorStatus. unfold bind at 1.
  destruct (truthy _ && isValidObjectId _); [|cbn; auto].
  unfold MentorModel_findById, bind, issue.
  destruct (rejects env OpFindMentor); [cbn; auto|].
  destruct (castObjectId _) as [k|]; [|cbn; auto].
  cbn. destruct (mentors st !! k) as [m|] eqn:Hm; [|cbn; auto].
  run_all.
  destruct (rejects env OpSaveMentor); [cbn; auto|].
  destruct (rejects env OpSendEmail); cbn;
    (split; [auto|]); right; exists k, m; auto.
Qed.

(** X9. Whatever the request and whatever rejects, [approveMentor] and
    [changeTopMentorStatus] leave the accounts, the users and the banners
    alone, neither add nor remove a mentor, and keep every mentor's address.
    [approveMentor] keeps every [top_mentor] flag and never takes an approval
    back; [changeTopMentorStatus] keeps every [approved] flag. *)
Theorem mentor_handlers_keep_the_rest (req : Request) (env : Env) (st : State) :
  let after_approve := snd (approveMentor req env st) in
  let after_toggle := snd (changeTopMentorStatus req env st) in
  keeps_other_collections st after_approve
  /\ keeps_other_collections st after_toggle
  /\ dom (mentors after_approve) = dom (mentors st)
  /\ dom (mentors after_toggle) = dom (mentors st)
  /\ (forall k m', mentors after_approve !! k = Some m' ->
        exists m, mentors st !! k = Some m
          /\ Mentor.email m' = Mentor.email m
          /\ Mentor.top_mentor m' = Mentor.top_mentor m
          /\ (Mentor.approved m = true -> Mentor.approved m' = true))
  /\ (forall k m', mentors after_toggle !! k = Some m' ->
        exists m, mentors st !! k = Some m
          /\ Mentor.email m' = Mentor.email m
          /\ Mentor.approved m' = Mentor.approved m).
Proof.
  cbn zeta.
  destruct (approveMentor_effect req env st) as (Hka & Ha).
  destruct (changeTopMentorStatus_effect req env st) as (Hkt & Ht).
  split; [exact Hka|]. split; [exact Hkt|].
  split; [|split; [|split]].
  - destruct Ha as [-> | (k & m & Hm & ->)]; [reflexivity|].
    apply dom_insert_lookup_L. now exists m.
  - destruct Ht as [-> | (k & m & Hm & ->)]; [reflexivity|].
    apply dom_insert_lookup_L. now exists m.
  - intros k m' Hm'. destruct Ha as [Heq | (k0 & m & Hm & Heq)];
      rewrite Heq in Hm'; [exists m'; auto|].
    destruct (decide (k0 = k)) as [<- | Hne].
    + rewrite lookup_insert_eq in Hm'. inversion Hm'; subst.
      exists m. destruct m; cbn; auto.
    + rewrite lookup_insert_ne in Hm' by assumption. exists m'; auto.
  - intros k m' Hm'. destruct Ht as [Heq | (k0 & m & Hm & Heq)];
      rewrite Heq in Hm'; [exists m'; auto|].
    destruct (decide (k0 = k)) as [<- | Hne].
    + rewrite lookup_insert_eq in Hm'. inversion Hm'; subst.
      exists m. destruct m; cbn; auto.
    + rewrite lookup_insert_ne in Hm' by assumption. exists m'; auto.
Qed.

(** X10. When everything goes through, each moderation handler answers 200
    and delivers exactly one mail, to the address stored with the subject;
    the top-mentor mail is rendered from the flag as it is after the
    toggle. *)
Theorem moderation_success_notifies_once :
  (forall req env st k m,
      mentor_resolves env st (prop "id" (body req)) k m ->
      rejects env OpSaveMentor = false ->
      rejects env OpSendEmail = false ->
      fst (approveMentor req env st) = Ok (succeeded "Mentor Approved!")
      /\ outbox (snd (approveMentor req env st))
         = outbox st ++ [mkMail (Mentor.email m) "Vita Application Approved!"
                                (makeTemplate "acceptMentor.hbs" JUndefined)])
  /\ (forall req env st k m,
      mentor_resolves env st (prop "id" (body req)) k m ->
      rejects env OpSaveMentor = false ->
      rejects env OpSendEmail = false ->
      fst (changeTopMentorStatus req env st) = Ok (succeeded "Mentor Approved!")
      /\ outbox (snd (changeTopMentorStatus req env st))
         = outbox st
           ++ [mkMail (Mentor.email m) "Vita top mentor"
                 (makeTemplate "topMentor.hbs"
                    (JObj [("top_mentor", JBool (negb (Mentor.top_mentor m)))]))])
  /\ (forall req env st k u,
      user_resolves env st (prop "id" (query req)) k u ->
      rejects env OpDeleteUser = false ->
      rejects env OpDeleteMentor = false ->
      rejects env OpSendEmail = false ->
      fst (rejectMentor req env st) = Ok (succeeded "Mentor rejected successfully!")
      /\ outbox (snd (rejectMentor req env st))
         = outbox st ++ [mkMail (User.email u) "Vita Application rejected"
                                (makeTemplate "rejectMentor.hbs" JUndefined)])
  /\ (forall req env st k u,
      user_resolves env st (prop "id" (params req)) k u ->
      rejects env OpDeleteUser = false ->
      rejects env OpDeleteMentor = false ->
      rejects env OpSendEmail = false ->
      fst (deleteUser req env st) = Ok (succeeded "Mentor rejected successfully!")
      /\ outbox (snd (deleteUser req env st))
         = outbox st ++ [mkMail (User.email u) "User account deleted"
                                (makeTemplate "accountDeleted.hbs"
                                   (JObj [("email", JStr (User.email u))]))]).
Proof.
  split; [|split; [|split]].
  - intros req env st k m Hres Hsave Hmail.
    rewrite (approveMentor_found _ _ _ _ _ Hres Hsave). cbn.
    rewrite Hmail. split; reflexivity.
  - intros req env st k m Hres Hsave Hmail.
    rewrite (changeTopMentorStatus_found _ _ _ _ _ Hres Hsave). cbn.
    rewrite Hmail. split; reflexivity.
  - intros req env st k u Hres Hdu Hdm Hmail.
    rewrite rejectMentor_is_cascade.
    rewrite (cascade_deleted _ _ _ _ _ _ _ _ _ Hres Hdu Hdm). cbn.
    rewrite Hmail. split; reflexivity.
  - intros req env st k u Hres Hdu Hdm Hmail.
    rewrite deleteUser_is_cascade.
    rewrite (cascade_deleted _ _ _ _ _ _ _ _ _ Hres Hdu Hdm). cbn.
    rewrite Hmail. split; reflexivity.
Qed.

Lemma cascade_never_throws_mail id nf subject html done env st e st' :
  cascade id nf subject html done env st = (Throw e, st') ->
  e <> MailError /\ outbox st' = outbox st.
Proof.
  unfold cascade. unfold bind at 1.
  destruct (truthy _ && isValidObjectId _); [|discriminate].
  unfold UserModel_findById, bind, issue.
  destruct (rejects env OpFindUser);
    [intros Hrun; inversion Hrun; subst; split; [discriminate | reflexivity]|].
  destruct (castObjectId _) as [k|];
    [|intros Hrun; inversion Hrun; subst; split; [discriminate | reflexivity]].
  cbn. destruct (users st !! k) as [u|]; [|discriminate].
  run_all.
  destruct (in_order env), (rejects env OpDeleteUser),
    (rejects env OpDeleteMentor); cbn;
    try (intros Hrun; inversion Hrun; subst; split; [discriminate | reflexivity]);
    destruct (rejects env OpSendEmail); discriminate.
Qed.

(** X11. A mail failure never escapes a moderation handler: whenever one of
    the four gives no answer, the error is not the mail service's (it comes
    from the store), and nothing has been delivered. *)
Theorem moderation_contains_mail_failure
    (req : Request) (env : Env) (st st' : State) (e : Error) :
  (approveMentor req env st = (Throw e, st') ->
     e <> MailError /\ outbox st' = outbox st)
  /\ (changeTopMentorStatus req env st = (Throw e, st') ->
     e <> MailError /\ outbox st' = outbox st)
  /\ (rejectMentor req env st = (Throw e, st') ->
     e <> MailError /\ outbox st' = outbox st)
  /\ (deleteUser req env st = (Throw e, st') ->
     e <> MailError /\ outbox st' = outbox st).
Proof.
  split; [|split; [|split]].
  - unfold approveMentor. unfold bind at 1.
    destruct (truthy _ && isValidObjectId _); [|discriminate].
    unfold MentorModel_findById, bind, issue.
    destruct (rejects env OpFindMentor);
      [intros Hrun; inversion Hrun; subst; split; [discriminate | reflexivity]|].
    destruct (castObjectId _) as [k|];
      [|intros Hrun; inversion Hrun; subst; split; [discriminate | reflexivity]].
    cbn. destruct (mentors st !! k) as [m|]; [|discriminate].
    run_all.
    destruct (rejects env OpSaveMentor);
      [intros Hrun; inversion Hrun; subst; split; [discriminate | reflexivity]|].
    destruct (rejects env OpSendEmail); discriminate.
  - unfold changeTopMentorStatus. unfold bind at 1.
    destruct (truthy _ && isValidObjectId _); [|discriminate].
    unfold MentorModel_findById, bind, issue.
    destruct (rejects env OpFindMentor);
      [intros Hrun; inversion Hrun; subst; split; [discriminate | reflexivity]|].
    destruct (castObjectId _) as [k|];
      [|intros Hrun; inversion Hrun; subst; split; [discriminate | reflexivity]].
    cbn. destruct (mentors st !! k) as [m|]; [|discriminate].
    run_all.
    destruct (rejects env OpSaveMentor);
      [intros Hrun; inversion Hrun; subst; split; [discriminate | reflexivity]|].
    destruct (rejects env OpSendEmail); discriminate.
  - rewrite rejectMentor_is_cascade. apply cascade_never_throws_mail.
  - rewrite deleteUser_is_cascade. apply cascade_never_throws_mail.
Qed.

(** ** The cascade *)

(** Whatever the run, a cascade removes at most the user the id resolves to
    and the profile that user points to. *)
Lemma cascade_effect id nf subject html done env st :
  let st' := snd (cascade id nf subject html done env st) in
  admins st' = admins st /\ banners st' = banners st
  /\ ((users st' = users st /\ mentors st' = mentors st)
      \/ exists k u,
           castObjectId id = Some k /\ users st !! k = Some u
           /\ (users st' = users st \/ users st' = delete k (users st))
           /\ (mentors st' = mentors st
               \/ mentors st'
                  = without_profile (User.mentor_information u) (mentors st))).
Proof.
  unfold cascade. unfold bind at 1.
  destruct (truthy _ && isValidObjectId _); [|cbn; auto].
  unfold UserModel_findById, bind, issue.
  destruct (rejects env OpFindUser); [cbn; auto|].
  destruct (castObjectId id) as [k|]; [|cbn; auto].
  cbn. destruct (users st !! k) as [u|] eqn:Hu; [|cbn; auto].
  run_all. unfold without_profile.
  destruct (in_order env), (rejects env OpDeleteUser),
    (rejects env OpDeleteMentor); cbn;
    try destruct (rejects env OpSendEmail); cbn;
    (split; [reflexivity|]); (split; [reflexivity|]);
    right; exists k, u; auto.
Qed.

Lemma cascade_only_removes id nf subject html done env st :
  let st' := snd (cascade id nf subject html done env st) in
  admins st' = admins st /\ banners st' = banners st
  /\ users st' ⊆ users st /\ mentors st' ⊆ mentors st
  /\ (forall k, castObjectId id <> Some k -> users st' !! k = users st !! k)
  /\ (forall p, mentors st' !! p <> mentors st !! p ->
        exists k u, castObjectId id = Some k /\ users st !! k = Some u
                    /\ User.mentor_information u = Some p).
Proof.
  cbn zeta.
  destruct (cascade_effect id nf subject html done env st)
    as (Ha & Hb & [(Hu & Hm) | (k & u & Hcast & Hk & Hu & Hm)]).
  - rewrite Ha, Hb, Hu, Hm. repeat split; try reflexivity.
    intros p Hp. now elim Hp.
  - split; [exact Ha|]. split; [exact Hb|].
    split; [|split; [|split]].
    + destruct Hu as [-> | ->]; [reflexivity | apply delete_subseteq].
    + destruct Hm as [-> | ->]; [reflexivity|].
      unfold without_profile. destruct (User.mentor_information u);
        [apply delete_subseteq | reflexivity].
    + intros k' Hne. destruct Hu as [-> | ->]; [reflexivity|].
      apply lookup_delete_ne. congruence.
    + intros p Hp. exists k, u. split; [exact Hcast|]. split; [exact Hk|].
      destruct Hm as [Hm | Hm]; rewrite Hm in Hp; [now elim Hp|].
      unfold without_profile in Hp.
      destruct (User.mentor_information u) as [q|]; [|now elim Hp].
      destruct (decide (q = p)) as [-> | Hne]; [reflexivity|].
      rewrite lookup_delete_ne in Hp by assumption. now elim Hp.
Qed.

(** X12. Whatever the request and whatever rejects, [rejectMentor] and
    [deleteUser] leave the accounts and the banners alone and only remove:
    no user other than the one the id resolves to is touched, and the only
    profile that can go is the one that user points to. *)
Theorem cascade_removes_only_the_subject (req : Request) (env : Env) (st : State) :
  let after_reject := snd (rejectMentor req env st) in
  let after_delete := snd (deleteUser req env st) in
  (admins after_reject = admins st /\ banners after_reject = banners st
   /\ users after_reject ⊆ users st /\ mentors after_reject ⊆ mentors st
   /\ (forall k, castObjectId (prop "id" (query req)) <> Some k ->
         users after_reject !! k = users st !! k)
   /\ (forall p, mentors after_reject !! p <> mentors st !! p ->
         exists k u, castObjectId (prop "id" (query req)) = Some k
                     /\ users st !! k = Some u
                     /\ User.mentor_information u = Some p))
  /\ (admins after_delete = admins st /\ banners after_delete = banners st
      /\ users after_delete ⊆ users st /\ mentors after_delete ⊆ mentors st
      /\ (forall k, castObjectId (prop "id" (params req)) <> Some k ->
            users after_delete !! k = users st !! k)
      /\ (forall p, mentors after_delete !! p <> mentors st !! p ->
            exists k u, castObjectId (prop "id" (params req)) = Some k
                        /\ users st !! k = Some u
                        /\ User.mentor_information u = Some p)).
Proof.
  cbn zeta. split.
  - rewrite rejectMentor_is_cascade. apply cascade_only_removes.
  - rewrite deleteUser_is_cascade. apply cascade_only_removes.
Qed.

Lemma cascade_half_done id nf subject html done env st k u p :
  user_resolves env st id k u ->
  User.mentor_information u = Some p ->
  (rejects env OpDeleteUser = true -> rejects env OpDeleteMentor = false ->
     exists e st',
       cascade id nf subject html done env st = (Throw e, st')
       /\ users st' !! k = Some u /\ mentors st' !! p = None)
  /\ (rejects env OpDeleteUser = false -> rejects env OpDeleteMentor = true ->
     exists e st',
       cascade id nf subject html done env st = (Throw e, st')
       /\ users st' !! k = None /\ mentors st' !! p = mentors st !! p).
Proof.
  intros (Hwf & Hfind & Hcast & Hu) Hp. unfold well_formed in Hwf.
  split; intros Hdu Hdm; unfold cascade; unfold bind at 1;
    rewrite Hwf, (UserModel_findById_resolves _ _ _ _ Hfind Hcast), Hu;
    run_all; rewrite Hp, Hdu, Hdm; destruct (in_order env); cbn;
    eexists _, _; (split; [reflexivity|]); cbn;
    first [ split; [exact Hu | apply lookup_delete_eq]
          | split; [apply lookup_delete_eq | reflexivity] ].
Qed.

(** X13. The cascade is not atomic.  When deleting the user rejects and
    deleting the profile goes through, the handler gives no answer and the
    user stays while the profile it points to is gone; the other way round,
    the user is gone and the profile stays.  The two handlers alike. *)
Theorem cascade_not_atomic
    (req : Request) (env : Env) (st : State) (k : ObjectId) (u : User.t)
    (p : ObjectId) :
  User.mentor_information u = Some p ->
  (user_resolves env st (prop "id" (query req)) k u ->
     (rejects env OpDeleteUser = true -> rejects env OpDeleteMentor = false ->
        exists e st',
          rejectMentor req env st = (Throw e, st')
          /\ users st' !! k = Some u /\ mentors st' !! p = None)
     /\ (rejects env OpDeleteUser = false -> rejects env OpDeleteMentor = true ->
        exists e st',
          rejectMentor req env st = (Throw e, st')
          /\ users st' !! k = None /\ mentors st' !! p = mentors st !! p))
  /\ (user_resolves env st (prop "id" (params req)) k u ->
     (rejects env OpDeleteUser = true -> rejects env OpDeleteMentor = false ->
        exists e st',
          deleteUser req env st = (Throw e, st')
          /\ users st' !! k = Some u /\ mentors st' !! p = None)
     /\ (rejects env OpDeleteUser = false -> rejects env OpDeleteMentor = true ->
        exists e st',
          deleteUser req env st = (Throw e, st')
          /\ users st' !! k = None /\ mentors st' !! p = mentors st !! p)).
Proof.
  intros Hp. split; intros Hres.
  - rewrite rejectMentor_is_cascade. now apply cascade_half_done.
  - rewrite deleteUser_is_cascade. now apply cascade_half_done.
Qed.

Lemma cascade_order_free id nf subject html done env env' st :
  (forall op, rejects env op = rejects env' op) ->
  let run := cascade id nf subject html done env st in
  let run' := cascade id nf subject html done env' st in
  store (snd run) = store (snd run')
  /\ outbox (snd run) = outbox (snd run')
  /\ same_answer (fst run) (fst run').
Proof.
  intros Hrej. unfold cascade. unfold bind at 1 3.
  destruct (truthy _ && isValidObjectId _); [|cbn; auto].
  unfold UserModel_findById, bind, issue. rewrite !Hrej.
  destruct (rejects env' OpFindUser); [cbn; auto|].
  destruct (castObjectId id) as [k|]; [|cbn; auto].
  cbn. destruct (users st !! k) as [u|]; [|cbn; auto].
  run_all. rewrite !Hrej.
  destruct (in_order env), (in_order env'), (rejects env' OpDeleteUser),
    (rejects env' OpDeleteMentor); cbn; auto;
    destruct (rejects env' OpSendEmail); cbn; auto.
Qed.

(** X14. The order in which the two deletions reach the store does not show:
    two environments that reject the same operations give [rejectMentor],
    and [deleteUser], the same collections, the same delivered mail and the
    same answer (or no answer from either), whichever deletion lands
    first. *)
Theorem cascade_order_irrelevant
    (req : Request) (env env' : Env) (st : State) :
  (forall op, rejects env op = rejects env' op) ->
  (store (snd (rejectMentor req env st)) = store (snd (rejectMentor req env' st))
   /\ outbox (snd (rejectMentor req env st))
      = outbox (snd (rejectMentor req env' st))
   /\ same_answer (fst (rejectMentor req env st)) (fst (rejectMentor req env' st)))
  /\ (store (snd (deleteUser req env st)) = store (snd (deleteUser req env' st))
      /\ outbox (snd (deleteUser req env st))
         = outbox (snd (deleteUser req env' st))
      /\ same_answer (fst (deleteUser req env st)) (fst (deleteUser req env' st))).
Proof.
  intros Hrej. split.
  - rewrite !rejectMentor_is_cascade. now apply cascade_order_free.
  - rewrite !deleteUser_is_cascade. now apply cascade_order_free.
Qed.

(** ** The banner *)

(** X15. [modifyBanner] always answers: nothing it awaits can make it throw.
    It answers 200, with the created banner in the body, exactly when both
    the insert and the delete-all go through, and 500 with [success: false]
    as soon as one of them rejects. *)
Theorem modifyBanner_always_answers (req : Request) (env : Env) (st : State) :
  exists answer,
    fst (modifyBanner req env st) = Ok answer
    /\ set_cookies answer = []
    /\ ((rejects env OpCreateBanner = false /\ rejects env OpDeleteBanners = false
         /\ status answer = 200%Z
         /\ json answer = JObj [("success", JBool true);
                                ("banner", JObj (body req))])
        \/ ((rejects env OpCreateBanner = true \/ rejects env OpDeleteBanners = true)
            /\ status answer = 500%Z
            /\ exists e, json answer = JObj [("success", JBool false);
                                             ("message", JStr (message e))])).
Proof.
  unfold modifyBanner. run_all.
  destruct (in_order env), (rejects env OpCreateBanner) eqn:Hc,
    (rejects env OpDeleteBanners) eqn:Hd; cbn;
    eexists; (split; [reflexivity|]); (split; [reflexivity|]); cbn;
    first [ left; repeat split; reflexivity
          | right; split; [auto|]; split; [reflexivity|];
            first [ exists (PersistenceError OpCreateBanner); reflexivity
                  | exists (PersistenceError OpDeleteBanners); reflexivity ] ].
Qed.

(** X16. When the delete-all reaches the store before the insert and both go
    through, [modifyBanner] replaces: whatever banners there were, one call
    leaves exactly the banner of its payload, and a second call leaves
    exactly the banner of the second payload. *)
Theorem modifyBanner_replaces_when_delete_lands_first
    (req1 req2 : Request) (env1 env2 : Env) (st : State) :
  in_order env1 = false ->
  rejects env1 OpCreateBanner = false ->
  rejects env1 OpDeleteBanners = false ->
  in_order env2 = false ->
  rejects env2 OpCreateBanner = false ->
  rejects env2 OpDeleteBanners = false ->
  let st1 := snd (modifyBanner req1 env1 st) in
  let run2 := modifyBanner req2 env2 st1 in
  banners st1 = [JObj (body req1)]
  /\ banners (snd run2) = [JObj (body req2)]
  /\ fst run2 = Ok (mkResponse 200 (JObj [("success", JBool true);
                                          ("banner", JObj (body req2))]) [] []).
Proof.
  intros Ho1 Hc1 Hd1 Ho2 Hc2 Hd2. cbn zeta.
  rewrite (modifyBanner_delete_first req1 env1 st Ho1 Hc1 Hd1). cbn [snd].
  rewrite (modifyBanner_delete_first req2 env2 _ Ho2 Hc2 Hd2).
  repeat split.
Qed.

(** X17. Whatever the request and whatever rejects, [modifyBanner] touches
    the banners only and sends no mail; the banners it leaves are the old
    ones, none, the new one alone, or the old ones with the new one
    appended. *)
Theorem modifyBanner_touches_banners_only (req : Request) (env : Env) (st : State) :
  let st' := snd (modifyBanner req env st) in
  admins st' = admins st /\ mentors st' = mentors st /\ users st' = users st
  /\ outbox st' = outbox st
  /\ List.filter is_mail_event (trace st') = List.filter is_mail_event (trace st)
  /\ (banners st' = banners st \/ banners st' = []
      \/ banners st' = [JObj (body req)]
      \/ banners st' = banners st ++ [JObj (body req)]).
Proof.
  unfold modifyBanner. run_all.
  destruct (in_order env), (rejects env OpCreateBanner),
    (rejects env OpDeleteBanners); cbn;
    rewrite ?List.filter_app; cbn; rewrite ?app_nil_r; tauto.
Qed.

(** X18. The mirror of the failed insert: when the delete-all rejects and
    the insert goes through, [modifyBanner] answers 500 although the new
    banner has been stored, beside the old ones, which are all still there. *)
Theorem modifyBanner_appends_when_delete_rejects
    (req : Request) (env : Env) (st : State) :
  rejects env OpCreateBanner = false ->
  rejects env OpDeleteBanners = true ->
  exists answer st',
    modifyBanner req env st = (Ok answer, st')
    /\ status answer = 500%Z
    /\ banners st' = banners st ++ [JObj (body req)]
    /\ length (banners st') = S (length (banners st)).
Proof.
  intros Hc Hd. unfold modifyBanner. run_all. rewrite Hc, Hd.
  destruct (in_order env); cbn; eexists _, _;
    (split; [reflexivity|]); (split; [reflexivity|]); cbn;
    (split; [reflexivity|]); rewrite length_app; cbn; lia.
Qed.

End Coverage.

(** ** Creating an account *)

Section Creation.
Context `{AdminSchema}.

(** X19. [createAdmin] reads the name, the address and the password of the
    body and nothing else of the request, and issues one operation, the
    save: two requests that agree on the three fields run alike.  When the
    save goes through it answers 201 and the account built from the three
    fields is added after the existing ones, with no lookup for an account
    of the same address; when the save rejects it gives no answer and the
    collections are as before. *)
Theorem createAdmin_reads_three_fields
    (req req' : Request) (env : Env) (st : State) :
  prop "name" (body req) = prop "name" (body req') ->
  prop "email" (body req) = prop "email" (body req') ->
  prop "password" (body req) = prop "password" (body req') ->
  let admin := AdminModel_new (prop "name" (body req)) (prop "email" (body req))
                              (prop "password" (body req)) env in
  createAdmin req env st = createAdmin req' env st
  /\ trace (snd (createAdmin req env st)) = trace st ++ [ESaveAdmin admin]
  /\ (rejects env OpSaveAdmin = false ->
        createAdmin req env st
        = (Ok (mkResponse 201 (JObj [("message", JStr "Admin Created Successfully")])
                          [] []),
           set_admins (fun accounts => accounts ++ [admin])
                      (logged (ESaveAdmin admin) st)))
  /\ (rejects env OpSaveAdmin = true ->
        fst (createAdmin req env st) = Throw (PersistenceError OpSaveAdmin)
        /\ store (snd (createAdmin req env st)) = store st).
Proof.
  intros Hname Hemail Hpw. cbn zeta. unfold createAdmin.
  rewrite <- Hname, <- Hemail, <- Hpw.
  split; [reflexivity|].
  unfold admin_save_new, bind, ask, issue, modify, ret, logged.
  destruct (rejects env OpSaveAdmin); cbn;
    (split; [reflexivity|]); split; intros Hrej; try discriminate;
    first [reflexivity | split; reflexivity].
Qed.

End Creation.

(** * The further properties on the small world *)

Lemma adminVerifyOtp_cookie_only_when_verified_witness :
  exists answer,
    fst (adminVerifyOtp (H:=reference) verify_ada_wrong calm world) = Ok answer
    /\ status answer = 401%Z /\ set_cookies answer = [].
Proof.
  pose (answer := mkResponse 401 (JObj [("error", JStr "Invalid OTP")]) [] []).
  exists answer.
  destruct (adminVerifyOtp_cookie_only_when_verified (H:=reference)
              verify_ada_wrong calm world
              (snd (adminVerifyOtp (H:=reference) verify_ada_wrong calm world))
              answer)
    as [(Hstatus & _) | (Hstatus & Hnone & _)]; [reflexivity | discriminate |].
  repeat split; assumption.
Defined.

Lemma adminVerifyOtp_unknown_account_as_login_witness :
  adminVerifyOtp (H:=reference) login_stranger calm world
  = adminLogin (H:=reference) login_stranger calm world.
Proof.
  apply (adminVerifyOtp_unknown_account_as_login (H:=reference)
           login_stranger calm world); reflexivity.
Defined.

Lemma adminLogin_sends_passcode_witness :
  exists answer st',
    adminLogin (H:=reference) login_ada calm world = (Ok answer, st')
    /\ status answer = 200%Z
    /\ outbox st' = [mkMail "a@x.com" "Vita Admin Login" "adminOtp.hbs?otp=424242"].
Proof.
  destruct (adminLogin_sends_passcode (H:=reference) login_ada calm world
              (snd (spec_generateOTP 300 ada calm
                      (logged (EFindAdmin (JStr "a@x.com")) world)))
              ada ada_pending "424242")
    as (answer & st' & Hrun & Hstatus & _ & _ & _ & Hout & _);
    [reflexivity | reflexivity | reflexivity | vm_compute; reflexivity
    | reflexivity |].
  exists answer, st'. repeat split; assumption.
Defined.

Lemma adminLogin_mail_failure_escapes_witness :
  exists st',
    adminLogin (H:=reference) login_ada mail_down world = (Throw MailError, st')
    /\ admins st' = [ada_pending]
    /\ outbox st' = [].
Proof.
  destruct (adminLogin_mail_failure_escapes (H:=reference) login_ada mail_down
              world
              (snd (spec_generateOTP 300 ada mail_down
                      (logged (EFindAdmin (JStr "a@x.com")) world)))
              ada ada_pending "424242")
    as (st' & Hrun & Hstore & Hout & _);
    [reflexivity | reflexivity | reflexivity | vm_compute; reflexivity
    | reflexivity |].
  exists st'. split; [exact Hrun|]. split; [|exact Hout].
  change (admins st') with (fst (fst (fst (store st')))).
  rewrite Hstore. reflexivity.
Defined.

Lemma adminLogin_sets_no_cookie_witness :
  set_cookies invalid_credentials = []
  /\ cleared_cookies invalid_credentials = []
  /\ (status invalid_credentials = 200%Z \/ status invalid_credentials = 401%Z).
Proof.
  apply (adminLogin_sets_no_cookie (H:=reference) login_wrong calm world
           (snd (adminLogin (H:=reference) login_wrong calm world))).
  reflexivity.
Defined.

Lemma adminLogout_clears_session_cookie_witness :
  exists out,
    adminLogout (with_body []) mail_down world = (Ok out, world)
    /\ status out = 200%Z
    /\ set_cookies out = []
    /\ In "adminToken" (cleared_cookies out).
Proof.
  apply (adminLogout_clears_session_cookie (H:=reference) verify_ada (with_body [])
           calm mail_down world
           (snd (adminVerifyOtp (H:=reference) verify_ada calm world)) world
           (mkResponse 200 (JObj [("message", JStr "OTP verified");
                                  ("user", Admin.toJSON ada_verified)])
              [mkCookie "adminToken" "token:5f1d7f3e2c4b1a0000000001" true 86400000]
              [])
           (mkCookie "adminToken" "token:5f1d7f3e2c4b1a0000000001" true 86400000)).
  - vm_compute. reflexivity.
  - left. reflexivity.
Defined.

Lemma approveMentor_twice_witness :
  let st1 := snd (approveMentor (H:=reference) approve_maya calm world) in
  let run2 := approveMentor (H:=reference) approve_maya calm st1 in
  fst run2 = Ok (succeeded "Mentor Approved!")
  /\ store (snd run2) = store st1
  /\ length (outbox (snd run2)) = 2.
Proof.
  destruct (approveMentor_twice (H:=reference) approve_maya calm calm world
              id_mentor maya) as (Hanswer & Hstore & Hout);
    [repeat split | reflexivity | reflexivity | reflexivity | reflexivity
    | reflexivity |].
  cbn zeta. split; [exact Hanswer|]. split; [exact Hstore|].
  rewrite Hout. reflexivity.
Defined.

Lemma approve_and_toggle_commute_witness :
  mentors (snd (changeTopMentorStatus (H:=reference) approve_maya mail_down
                  (snd (approveMentor (H:=reference) approve_maya calm world))))
  = mentors (snd (approveMentor (H:=reference) approve_maya mail_down
                    (snd (changeTopMentorStatus (H:=reference) approve_maya calm
                            world)))).
Proof.
  apply (approve_and_toggle_commute (H:=reference) approve_maya calm mail_down
           world id_mentor maya); [repeat split | reflexivity ..].
Defined.

Lemma moderation_success_notifies_once_witness :
  fst (changeTopMentorStatus (H:=reference) approve_maya calm world)
  = Ok (succeeded "Mentor Approved!")
  /\ outbox (snd (changeTopMentorStatus (H:=reference) approve_maya calm world))
     = [mkMail "maya@x.com" "Vita top mentor" "topMentor.hbs?top_mentor=true"].
Proof.
  destruct (moderation_success_notifies_once (H:=reference)) as (_ & Htoggle & _).
  apply (Htoggle approve_maya calm world id_mentor maya);
    [repeat split | reflexivity ..].
Defined.

Lemma moderation_contains_mail_failure_witness :
  PersistenceError OpDeleteUser <> MailError
  /\ outbox (snd (deleteUser (H:=reference) delete_uma user_delete_fails world))
     = outbox world.
Proof.
  destruct (moderation_contains_mail_failure (H:=reference) delete_uma
              user_delete_fails world
              (snd (deleteUser (H:=reference) delete_uma user_delete_fails world))
              (PersistenceError OpDeleteUser)) as (_ & _ & _ & Hdelete).
  apply Hdelete. vm_compute. reflexivity.
Defined.

Lemma cascade_not_atomic_witness :
  exists e st',
    rejectMentor (H:=reference) reject_uma user_delete_fails world = (Throw e, st')
    /\ users st' !! id_user = Some uma
    /\ mentors st' !! id_mentor = None.
Proof.
  destruct (cascade_not_atomic (H:=reference) reject_uma user_delete_fails world
              id_user uma id_mentor) as (Hreject & _); [reflexivity|].
  destruct Hreject as (Horphan & _); [repeat split|].
  apply Horphan; reflexivity.
Defined.

Lemma cascade_order_irrelevant_witness :
  store (snd (rejectMentor (H:=reference) reject_uma calm world))
  = store (snd (rejectMentor (H:=reference) reject_uma racy world))
  /\ same_answer (fst (rejectMentor (H:=reference) reject_uma calm world))
                 (fst (rejectMentor (H:=reference) reject_uma racy world)).
Proof.
  destruct (cascade_order_irrelevant (H:=reference) reject_uma calm racy world)
    as ((Hstore & _ & Hanswer) & _); [reflexivity|].
  split; assumption.
Defined.

Lemma modifyBanner_replaces_when_delete_lands_first_witness :
  banners (snd (modifyBanner put_summer calm world)) = [summer]
  /\ banners (snd (modifyBanner (with_body [("text", JStr "Spring cohort")]) calm
                     (snd (modifyBanner put_summer calm world)))) = [spring].
Proof.
  destruct (modifyBanner_replaces_when_delete_lands_first put_summer
              (with_body [("text", JStr "Spring cohort")]) calm calm world)
    as (Hfirst & Hsecond & _); try reflexivity.
  split; assumption.
Defined.

Lemma modifyBanner_appends_when_delete_rejects_witness :
  exists answer st',
    modifyBanner put_summer delete_fails world = (Ok answer, st')
    /\ status answer = 500%Z
    /\ banners st' = [spring; summer].
Proof.
  destruct (modifyBanner_appends_when_delete_rejects put_summer delete_fails world)
    as (answer & st' & Hrun & Hstatus & Hbanners & _); [reflexivity ..|].
  exists answer, st'. repeat split; assumption.
Defined.

Lemma createAdmin_reads_three_fields_witness :
  createAdmin (H:=reference_schema) create_bob calm world
  = createAdmin (H:=reference_schema) create_bob_noisy calm world
  /\ fst (createAdmin (H:=reference_schema) create_bob save_fails world)
     = Throw (PersistenceError OpSaveAdmin).
Proof.
  destruct (createAdmin_reads_three_fields (H:=reference_schema)
              create_bob create_bob_noisy calm world)
    as (Hsame & _); [reflexivity ..|].
  destruct (createAdmin_reads_three_fields (H:=reference_schema)
              create_bob create_bob save_fails world)
    as (_ & _ & _ & Hrejected); [reflexivity ..|].
  split; [exact Hsame|]. now apply Hrejected.
Defined.

(** ** An id the guard lets through and the cast refuses *)

Section CastFailure.
Context `{Externals}.

(** X20. An id that passes the guard but cannot be cast is handed to
    [findById], which rejects: each of the four moderation handlers then
    gives no answer, with the lookup as the only operation issued and the
    collections and the mail untouched. *)
Theorem uncastable_id_throws (req : Request) (env : Env) (st : State) :
  (well_formed (prop "id" (body req)) = true ->
   rejects env OpFindMentor = false ->
   castObjectId (prop "id" (body req)) = None ->
   approveMentor req env st
   = (Throw CastError, logged (EFindMentor (prop "id" (body req))) st)
   /\ changeTopMentorStatus req env st
      = (Throw CastError, logged (EFindMentor (prop "id" (body req))) st))
  /\ (well_formed (prop "id" (query req)) = true ->
      rejects env OpFindUser = false ->
      castObjectId (prop "id" (query req)) = None ->
      rejectMentor req env st
      = (Throw CastError, logged (EFindUser (prop "id" (query req))) st))
  /\ (well_formed (prop "id" (params req)) = true ->
      rejects env OpFindUser = false ->
      castObjectId (prop "id" (params req)) = None ->
      deleteUser req env st
      = (Throw CastError, logged (EFindUser (prop "id" (params req))) st)).
Proof.
  unfold well_formed. split; [|split]; intros Hwf Hfind Hcast.
  - split.
    + unfold approveMentor, MentorModel_findById, bind.
      rewrite Hwf, (issue_resolves _ _ _ _ _ Hfind), Hcast. reflexivity.
    + unfold changeTopMentorStatus, MentorModel_findById, bind.
      rewrite Hwf, (issue_resolves _ _ _ _ _ Hfind), Hcast. reflexivity.
  - unfold rejectMentor, UserModel_findById, bind.
    rewrite Hwf, (issue_resolves _ _ _ _ _ Hfind), Hcast. reflexivity.
  - unfold deleteUser, UserModel_findById, bind.
    rewrite Hwf, (issue_resolves _ _ _ _ _ Hfind), Hcast. reflexivity.
Qed.

End CastFailure.

Lemma uncastable_id_throws_witness :
  approveMentor (H:=bson) approve_123 calm world
  = (Throw CastError, logged (EFindMentor (JNum 123)) world)
  /\ changeTopMentorStatus (H:=bson) approve_123 calm world
     = (Throw CastError, logged (EFindMentor (JNum 123)) world).
Proof.
  destruct (uncastable_id_throws (H:=bson) approve_123 calm world) as (Hbody & _).
  apply Hbody; reflexivity.
Defined.

